(** * linux_gpiod.c: the libgpiod bit-bang SPI programmer of flashrom

    A shallow embedding of [linux_gpiod.c] and the properties of its
    initialisation, shutdown and line operations.

    The C file talks to three collaborators: libgpiod (chips, lines, bulks),
    libc ([calloc], [free], [atoi]) and the flashrom core
    ([extract_programmer_param_str], [register_shutdown],
    [register_spi_bitbang_master], [msg_perr]).  None of them is part of the
    file.  Their answers are gathered in a record [world]; every call that is
    visible at the boundary is appended to a trace, and the one heap object
    the file owns ([struct gpiod_spi_data]) lives in an explicit heap, so
    that reading it after [free] is an error of the model. *)

From Stdlib Require Import ZArith String Ascii List Lia.
From stdpp Require Import base option list gmap strings.

Local Open Scope string_scope.
Local Open Scope Z_scope.

Module LinuxGpiod.

(** ** Data model *)

(** [struct gpiod_chip *] and [struct gpiod_line *] are opaque handles handed
    out by libgpiod; a nullable pointer is an [option]. *)
Definition gpiod_chip : Type := nat.
Definition gpiod_line : Type := nat.

(** [struct gpiod_line_bulk]: the array [lines] cut at [num_lines]. *)
Definition gpiod_line_bulk : Type := list gpiod_line.

Definition gpiod_line_bulk_num_lines (b : gpiod_line_bulk) : Z :=
  Z.of_nat (length b).

(** [gpiod_line_bulk_get_line(&bulk, offset)] reads [lines[offset]]; behind
    [num_lines] the array is what [calloc] left there, a null pointer. *)
Definition gpiod_line_bulk_get_line (b : gpiod_line_bulk) (offset : nat)
  : option gpiod_line := b !! offset.

(** Addresses of [struct gpiod_spi_data] objects. *)
Definition loc : Type := positive.

Record gpiod_spi_data : Type := mk_data {
  chip : option gpiod_chip;
  bulk : gpiod_line_bulk;
  cs_line : option gpiod_line;
  sck_line : option gpiod_line;
  mosi_line : option gpiod_line;
  miso_line : option gpiod_line
}.

(** What [calloc] returns for one [struct gpiod_spi_data]: all fields zero. *)
Definition zeroed : gpiod_spi_data :=
  mk_data None [] None None None None.

Definition set_chip (c : option gpiod_chip) (d : gpiod_spi_data) :=
  mk_data c (bulk d) (cs_line d) (sck_line d) (mosi_line d) (miso_line d).
Definition set_bulk (b : gpiod_line_bulk) (d : gpiod_spi_data) :=
  mk_data (chip d) b (cs_line d) (sck_line d) (mosi_line d) (miso_line d).
Definition set_cs_line (l : option gpiod_line) (d : gpiod_spi_data) :=
  mk_data (chip d) (bulk d) l (sck_line d) (mosi_line d) (miso_line d).
Definition set_sck_line (l : option gpiod_line) (d : gpiod_spi_data) :=
  mk_data (chip d) (bulk d) (cs_line d) l (mosi_line d) (miso_line d).
Definition set_mosi_line (l : option gpiod_line) (d : gpiod_spi_data) :=
  mk_data (chip d) (bulk d) (cs_line d) (sck_line d) l (miso_line d).
Definition set_miso_line (l : option gpiod_line) (d : gpiod_spi_data) :=
  mk_data (chip d) (bulk d) (cs_line d) (sck_line d) (mosi_line d) l.

(** The four roles of the line set, in the order of the bulk. *)
Inductive role : Type := CS | SCK | MOSI | MISO.

(** ** Calls seen at the boundary *)

Inductive event : Type :=
| msg_perr (text : string)
| E_chip_open_by_number (num : Z)
| E_chip_get_lines (c : gpiod_chip) (offsets : list Z)
| E_line_request_output (l : gpiod_line) (consumer : string) (default_val : Z)
| E_line_request_input (l : gpiod_line) (consumer : string)
| E_line_set_value (l : gpiod_line) (value : Z)
| E_line_get_value (l : gpiod_line)
| E_line_release_bulk (b : gpiod_line_bulk)
| E_chip_close (c : gpiod_chip)
| E_register_shutdown (data : loc)
| E_register_spi_bitbang_master (data : loc).

(** The calls into libgpiod. *)
Definition is_gpio_call (e : event) : bool :=
  match e with
  | msg_perr _ | E_register_shutdown _ | E_register_spi_bitbang_master _ => false
  | _ => true
  end.

Definition is_release (e : event) : bool :=
  match e with E_line_release_bulk _ => true | _ => false end.
Definition is_close (e : event) : bool :=
  match e with E_chip_close _ => true | _ => false end.
Definition is_request (e : event) : bool :=
  match e with
  | E_line_request_output _ _ _ | E_line_request_input _ _ => true
  | _ => false
  end.

(** ** The collaborators

    One record fixes what the collaborators answer during one run of the
    function under study.  Every call site of the C file is executed at most
    once per run (the only loop asks for five different parameter names), so
    an answer per call site describes any run.  The requests of the four
    lines are four call sites: the answer depends on the role as well as on
    the line, since the same line may be asked for twice. *)
Record world : Type := mk_world {
  (* flashrom core: the value of a programmer parameter, NULL if absent *)
  extract_programmer_param_str : string -> option string;
  (* libc: does calloc return NULL *)
  calloc_fails : bool;
  (* libgpiod *)
  gpiod_chip_open_by_number : Z -> option gpiod_chip;
  strerror_errno : string;
  (* return code, and the bulk as the call left it behind *)
  gpiod_chip_get_lines : gpiod_chip -> list Z -> Z * gpiod_line_bulk;
  gpiod_line_request : role -> gpiod_line -> Z;
  gpiod_line_set_value : gpiod_line -> Z -> Z;
  gpiod_line_get_value : gpiod_line -> Z;
  (* flashrom core *)
  register_shutdown : Z;
  register_spi_bitbang_master : Z
}.

(** ** State and the monad of the embedding

    [None] is undefined behaviour: a read, write or free through a pointer
    that is not live, or a libgpiod call on a null line. *)
Record state : Type := mk_state {
  heap : gmap loc gpiod_spi_data;
  trace : list event
}.

Definition M (A : Type) : Type := state -> option (A * state).

#[export] Instance M_ret : MRet M := fun A a s => Some (a, s).
#[export] Instance M_bind : MBind M := fun A B k m s =>
  match m s with
  | Some (a, s') => k a s'
  | None => None
  end.

Definition undefined {A : Type} : M A := fun _ => None.

Definition emit (e : event) : M unit := fun s =>
  Some (tt, mk_state (heap s) (trace s ++ [e])).

Definition load (p : loc) : M gpiod_spi_data := fun s =>
  match heap s !! p with
  | Some d => Some (d, s)
  | None => None
  end.

Definition store (p : loc) (f : gpiod_spi_data -> gpiod_spi_data) : M unit :=
  fun s =>
  match heap s !! p with
  | Some d => Some (tt, mk_state (<[p := f d]> (heap s)) (trace s))
  | None => None
  end.

Definition calloc (w : world) : M (option loc) := fun s =>
  if calloc_fails w then Some (None, s)
  else let p := fresh (dom (heap s)) in
       Some (Some p, mk_state (<[p := zeroed]> (heap s)) (trace s)).

Definition free (p : loc) : M unit := fun s =>
  match heap s !! p with
  | Some _ => Some (tt, mk_state (delete p (heap s)) (trace s))
  | None => None
  end.

(** ** libc: [atoi] and the conversion to [unsigned int]

    [atoi] skips white space, reads an optional sign and then decimal digits
    up to the first other character.  [param_int[i] = atoi(param)] stores the
    [int] in an [unsigned int]: the value modulo 2^32. *)
Definition is_space (c : ascii) : bool :=
  let n := nat_of_ascii c in
  (n =? 32)%nat || ((9 <=? n)%nat && (n <=? 13)%nat).

Definition digit_of (c : ascii) : option Z :=
  let n := Z.of_nat (nat_of_ascii c) in
  if (48 <=? n) && (n <=? 57) then Some (n - 48) else None.

Fixpoint skip_spaces (s : string) : string :=
  match s with
  | String c s' => if is_space c then skip_spaces s' else s
  | EmptyString => s
  end.

Fixpoint atoi_digits (acc : Z) (s : string) : Z :=
  match s with
  | String c s' =>
      match digit_of c with
      | Some d => atoi_digits (10 * acc + d) s'
      | None => acc
      end
  | EmptyString => acc
  end.

Definition atoi (s : string) : Z :=
  match skip_spaces s with
  | String "-" s' => - atoi_digits 0 s'
  | String "+" s' => atoi_digits 0 s'
  | s' => atoi_digits 0 s'
  end.

Definition to_unsigned_int (z : Z) : Z := z mod 2 ^ 32.

(** ** Calls into libgpiod and the flashrom core

    Each call leaves its event in the trace and returns what the world
    answers.  A null line is dereferenced by libgpiod: undefined. *)
Definition call_chip_open_by_number (w : world) (num : Z)
  : M (option gpiod_chip) :=
  emit (E_chip_open_by_number num);;
  mret (gpiod_chip_open_by_number w num).

(** [gpiod_chip_get_lines(chip, offsets, n, &data->bulk)] writes the bulk of
    [data] and returns its code. *)
Definition call_chip_get_lines (w : world) (c : gpiod_chip) (offsets : list Z)
    (data : loc) : M Z :=
  emit (E_chip_get_lines c offsets);;
  store data (set_bulk (gpiod_chip_get_lines w c offsets).2);;
  mret (gpiod_chip_get_lines w c offsets).1.

Definition call_line_request_output (w : world) (r : role)
    (l : option gpiod_line) (consumer : string) (default_val : Z) : M Z :=
  match l with
  | Some l =>
      emit (E_line_request_output l consumer default_val);;
      mret (gpiod_line_request w r l)
  | None => undefined
  end.

Definition call_line_request_input (w : world) (r : role)
    (l : option gpiod_line) (consumer : string) : M Z :=
  match l with
  | Some l =>
      emit (E_line_request_input l consumer);;
      mret (gpiod_line_request w r l)
  | None => undefined
  end.

Definition call_line_set_value (w : world) (l : option gpiod_line) (val : Z)
  : M Z :=
  match l with
  | Some l => emit (E_line_set_value l val);; mret (gpiod_line_set_value w l val)
  | None => undefined
  end.

Definition call_line_get_value (w : world) (l : option gpiod_line) : M Z :=
  match l with
  | Some l => emit (E_line_get_value l);; mret (gpiod_line_get_value w l)
  | None => undefined
  end.

Definition call_register_shutdown (w : world) (data : loc) : M Z :=
  emit (E_register_shutdown data);; mret (register_shutdown w).

Definition call_register_spi_bitbang_master (w : world) (data : loc) : M Z :=
  emit (E_register_spi_bitbang_master data);;
  mret (register_spi_bitbang_master w).

(** ** The program *)

Definition nl : string := String (ascii_of_nat 10) EmptyString.

Definition CONSUMER : string := "flashrom".

Definition when (b : bool) (m : M unit) : M unit := if b then m else mret tt.

Definition linux_gpiod_bitbang_set_cs (w : world) (val : Z) (spi_data : loc)
  : M unit :=
  data ← load spi_data;
  r ← call_line_set_value w (cs_line data) val;
  when (r <? 0) (emit (msg_perr ("Setting cs line failed" +:+ nl))).

Definition linux_gpiod_bitbang_set_sck (w : world) (val : Z) (spi_data : loc)
  : M unit :=
  data ← load spi_data;
  r ← call_line_set_value w (sck_line data) val;
  when (r <? 0) (emit (msg_perr ("Setting sck line failed" +:+ nl))).

Definition linux_gpiod_bitbang_set_mosi (w : world) (val : Z) (spi_data : loc)
  : M unit :=
  data ← load spi_data;
  r ← call_line_set_value w (mosi_line data) val;
  when (r <? 0) (emit (msg_perr ("Setting sck line failed" +:+ nl))).

Definition linux_gpiod_bitbang_get_miso (w : world) (spi_data : loc) : M Z :=
  data ← load spi_data;
  r ← call_line_get_value w (miso_line data);
  when (r <? 0) (emit (msg_perr ("Getting miso line failed" +:+ nl)));;
  mret r.

(** [struct bitbang_spi_master]: the four operations handed to the generic
    bit-bang engine, each taking the value (if any) and the state pointer. *)
Record bitbang_spi_master : Type := mk_master {
  set_cs : world -> Z -> loc -> M unit;
  set_sck : world -> Z -> loc -> M unit;
  set_mosi : world -> Z -> loc -> M unit;
  get_miso : world -> loc -> M Z
}.

Definition bitbang_spi_master_gpiod : bitbang_spi_master :=
  mk_master linux_gpiod_bitbang_set_cs linux_gpiod_bitbang_set_sck
            linux_gpiod_bitbang_set_mosi linux_gpiod_bitbang_get_miso.

Definition linux_gpiod_spi_shutdown (spi_data : loc) : M Z :=
  data ← load spi_data;
  when (0 <? gpiod_line_bulk_num_lines (bulk data))
       (emit (E_line_release_bulk (bulk data)));;
  data ← load spi_data;
  match chip data with
  | Some c => emit (E_chip_close c)
  | None => mret tt
  end;;
  free spi_data;;
  mret 0.

Definition param_str : list string := ["cs"; "sck"; "mosi"; "miso"; "gpiochip"].

(** The loop of [linux_gpiod_spi_init] over [names]: the values read so far
    are extended, or the diagnostic is printed and [None] tells the caller to
    jump to [err_exit]. *)
Fixpoint parse_params (w : world) (names : list string) : M (option (list Z)) :=
  match names with
  | [] => mret (Some [])
  | name :: rest =>
      match extract_programmer_param_str w name with
      | Some param =>
          r ← parse_params w rest;
          mret (cons (to_unsigned_int (atoi param)) <$> r)
      | None =>
          emit (msg_perr ("Missing required programmer parameter "
                          +:+ name +:+ "=<n>" +:+ nl));;
          mret None
      end
  end.

(** The label [err_exit], with the values of the locals [data] and [chip]. *)
Definition err_exit (data : option loc) (chip : option gpiod_chip) : M Z :=
  match data with
  | Some p =>
      d ← load p;
      when (0 <? gpiod_line_bulk_num_lines (bulk d))
           (emit (E_line_release_bulk (bulk d)));;
      free p
  | None => mret tt
  end;;
  match chip with
  | Some c => emit (E_chip_close c)
  | None => mret tt
  end;;
  mret 1.

(** The nested matches are the early exits of the C function.  [r |= ...] on
    [int] is [Z.lor]: bitwise or on two's complement numbers, which stays in
    the range of its operands. *)
Definition linux_gpiod_spi_init (w : world) : M Z :=
  params ← parse_params w param_str;
  match params with
  | None => err_exit None None
  | Some param_int =>
  data ← calloc w;
  match data with
  | None =>
      emit (msg_perr ("Unable to allocate space for SPI master data" +:+ nl));;
      err_exit None None
  | Some data =>
  chip ← call_chip_open_by_number w (nth 4 param_int 0);
  match chip with
  | None =>
      emit (msg_perr ("Failed to open gpiochip: " +:+ strerror_errno w +:+ nl));;
      err_exit (Some data) None
  | Some c =>
  store data (set_chip (Some c));;
  rc ← call_chip_get_lines w c (take 4 param_int) data;
  if negb (rc =? 0) then
    emit (msg_perr ("Error getting GPIO lines" +:+ nl));;
    err_exit (Some data) (Some c)
  else
  d ← load data; store data (set_cs_line (gpiod_line_bulk_get_line (bulk d) 0));;
  d ← load data; store data (set_sck_line (gpiod_line_bulk_get_line (bulk d) 1));;
  d ← load data; store data (set_mosi_line (gpiod_line_bulk_get_line (bulk d) 2));;
  d ← load data; store data (set_miso_line (gpiod_line_bulk_get_line (bulk d) 3));;
  d ← load data; r1 ← call_line_request_output w CS (cs_line d) CONSUMER 1;
  d ← load data; r2 ← call_line_request_output w SCK (sck_line d) CONSUMER 1;
  d ← load data; r3 ← call_line_request_output w MOSI (mosi_line d) CONSUMER 1;
  d ← load data; r4 ← call_line_request_input w MISO (miso_line d) CONSUMER;
  let r := Z.lor (Z.lor (Z.lor r1 r2) r3) r4 in
  if r <? 0 then
    emit (msg_perr ("Requesting GPIO lines failed" +:+ nl));;
    err_exit (Some data) (Some c)
  else
  rs ← call_register_shutdown w data;
  if negb (rs =? 0) then err_exit (Some data) (Some c)
  else
  rm ← call_register_spi_bitbang_master w data;
  if negb (rm =? 0) then mret 1
  else mret 0
  end end end.

(** ** Reading the parameters *)

(** The first name of [names] that the configuration does not give. *)
Fixpoint first_missing (w : world) (names : list string) : option string :=
  match names with
  | [] => None
  | name :: rest =>
      match extract_programmer_param_str w name with
      | Some _ => first_missing w rest
      | None => Some name
      end
  end.

Definition param_value (w : world) (name : string) : Z :=
  match extract_programmer_param_str w name with
  | Some param => to_unsigned_int (atoi param)
  | None => 0
  end.

(** [param_int] once the loop has run through; [param_int[4]] is the number
    of the chip, the first four entries are the line offsets. *)
Definition param_int (w : world) : list Z := param_value w <$> param_str.
Definition gpiochip_number (w : world) : Z := nth 4 (param_int w) 0.
Definition line_offsets (w : world) : list Z := take 4 (param_int w).

Definition missing_diagnostic (name : string) : event :=
  msg_perr ("Missing required programmer parameter " +:+ name +:+ "=<n>" +:+ nl).

(** ** Observing a run *)

(** The events a run has added to the trace of [s]. *)
Definition added (s s' : state) : list event :=
  drop (length (trace s)) (trace s').

Definition gpio_calls (t : list event) : list event := List.filter is_gpio_call t.
Definition releases (t : list event) : list event := List.filter is_release t.
Definition closes (t : list event) : list event := List.filter is_close t.
Definition requests (t : list event) : list event := List.filter is_request t.

(** A backend whose four lines were looked up and assigned to their roles. *)
Definition armed (c : gpiod_chip) (l0 l1 l2 l3 : gpiod_line) : gpiod_spi_data :=
  mk_data (Some c) [l0; l1; l2; l3] (Some l0) (Some l1) (Some l2) (Some l3).

(** The calls of an initialisation up to the end of the four requests. *)
Definition acquisition (w : world) (c : gpiod_chip) (l0 l1 l2 l3 : gpiod_line)
  : list event :=
  [ E_chip_open_by_number (gpiochip_number w);
    E_chip_get_lines c (line_offsets w);
    E_line_request_output l0 CONSUMER 1;
    E_line_request_output l1 CONSUMER 1;
    E_line_request_output l2 CONSUMER 1;
    E_line_request_input l3 CONSUMER ].

(** The run gets as far as the four requests: the parameters are given, the
    state is allocated, the chip opens as [c] and the lookup returns 0 with
    the four lines in the bulk. *)
Definition lines_looked_up (w : world) (c : gpiod_chip)
    (l0 l1 l2 l3 : gpiod_line) : Prop :=
  first_missing w param_str = None /\
  calloc_fails w = false /\
  gpiod_chip_open_by_number w (gpiochip_number w) = Some c /\
  gpiod_chip_get_lines w c (line_offsets w) = (0, [l0; l1; l2; l3]).

(** The accumulated result [r] of the four requests. *)
Definition requests_result (w : world) (l0 l1 l2 l3 : gpiod_line) : Z :=
  Z.lor (Z.lor (Z.lor (gpiod_line_request w CS l0)
                      (gpiod_line_request w SCK l1))
               (gpiod_line_request w MOSI l2))
        (gpiod_line_request w MISO l3).

Definition requests_failed_diagnostic : event :=
  msg_perr ("Requesting GPIO lines failed" +:+ nl).

(** [needle] occurs in [s]. *)
Fixpoint occurs_in (needle s : string) : bool :=
  String.prefix needle s ||
  match s with
  | String _ s' => occurs_in needle s'
  | EmptyString => false
  end.

(** ** Sample worlds *)

Definition cfg_full (name : string) : option string :=
  if String.eqb name "cs" then Some "5"
  else if String.eqb name "sck" then Some "6"
  else if String.eqb name "mosi" then Some "7"
  else if String.eqb name "miso" then Some "8"
  else if String.eqb name "gpiochip" then Some "0"
  else None.

Definition cfg_without (absent : string) (name : string) : option string :=
  if String.eqb name absent then None else cfg_full name.

(** Line handles are numbered like their offsets. *)
Definition lookup_all (c : gpiod_chip) (offsets : list Z) : Z * gpiod_line_bulk :=
  (0, Z.to_nat <$> offsets).

(** The lookup gives up at its second offset.  libgpiod's
    [gpiod_chip_get_lines] empties the bulk, then gets the lines one by one
    and adds each to the bulk, returning -1 at the first it cannot get: the
    first line is in the bulk when the call fails. *)
Definition lookup_second_fails (c : gpiod_chip) (offsets : list Z)
  : Z * gpiod_line_bulk :=
  (-1, Z.to_nat <$> take 1 offsets).

(** The lookup gives up at its first offset: the bulk stays empty. *)
Definition lookup_first_fails (c : gpiod_chip) (offsets : list Z)
  : Z * gpiod_line_bulk :=
  (-1, []).

Definition w_ok : world :=
  mk_world cfg_full false (fun _ => Some 0%nat) "Success" lookup_all
           (fun _ _ => 0) (fun _ _ => 0) (fun _ => 1) 0 0.

Definition w_no_miso : world :=
  mk_world (cfg_without "miso") false (fun _ => Some 0%nat) "Success" lookup_all
           (fun _ _ => 0) (fun _ _ => 0) (fun _ => 1) 0 0.

Definition w_no_memory : world :=
  mk_world cfg_full true (fun _ => Some 0%nat) "Success" lookup_all
           (fun _ _ => 0) (fun _ _ => 0) (fun _ => 1) 0 0.

Definition w_lookup_partial : world :=
  mk_world cfg_full false (fun _ => Some 0%nat) "Success" lookup_second_fails
           (fun _ _ => 0) (fun _ _ => 0) (fun _ => 1) 0 0.

Definition w_lookup_empty : world :=
  mk_world cfg_full false (fun _ => Some 0%nat) "Success" lookup_first_fails
           (fun _ _ => 0) (fun _ _ => 0) (fun _ => 1) 0 0.

(** The request of the data-in line is refused, the other three succeed. *)
Definition w_miso_busy : world :=
  mk_world cfg_full false (fun _ => Some 0%nat) "Success" lookup_all
           (fun r _ => match r with MISO => -1 | _ => 0 end)
           (fun _ _ => 0) (fun _ => 1) 0 0.

Definition w_master_refused : world :=
  mk_world cfg_full false (fun _ => Some 0%nat) "Success" lookup_all
           (fun _ _ => 0) (fun _ _ => 0) (fun _ => 1) 0 1.

(** Reads and writes of line values fail. *)
Definition w_io_error : world :=
  mk_world cfg_full false (fun _ => Some 0%nat) "Success" lookup_all
           (fun _ _ => 0) (fun _ _ => -1) (fun _ => -1) 0 0.

(** There is no such chip. *)
Definition w_no_chip : world :=
  mk_world cfg_full false (fun _ => None) "No such file or directory"
           lookup_all (fun _ _ => 0) (fun _ _ => 0) (fun _ => 1) 0 0.

(** The table of shutdown functions is full. *)
Definition w_shutdown_refused : world :=
  mk_world cfg_full false (fun _ => Some 0%nat) "Success" lookup_all
           (fun _ _ => 0) (fun _ _ => 0) (fun _ => 1) 1 0.

(** Writes succeed and the data-in line reads high. *)
Definition w_reads_high : world :=
  mk_world cfg_full false (fun _ => Some 0%nat) "Success" lookup_all
           (fun _ _ => 0) (fun _ _ => 0) (fun _ => 1) 0 0.

Definition s_empty : state := mk_state ∅ [].

(** The state a successful initialisation in [w_ok] leaves. *)
Definition s_ready : state :=
  mk_state {[ 1%positive := armed 0%nat 5%nat 6%nat 7%nat 8%nat ]}
    [E_chip_open_by_number 0;
     E_chip_get_lines 0%nat [5; 6; 7; 8];
     E_line_request_output 5%nat "flashrom" 1;
     E_line_request_output 6%nat "flashrom" 1;
     E_line_request_output 7%nat "flashrom" 1;
     E_line_request_input 8%nat "flashrom";
     E_register_shutdown 1%positive;
     E_register_spi_bitbang_master 1%positive].

(** The state after the initialisation in [w_miso_busy] has given up. *)
Definition s_rolled_back : state :=
  mk_state ∅
    [E_chip_open_by_number 0;
     E_chip_get_lines 0%nat [5; 6; 7; 8];
     E_line_request_output 5%nat "flashrom" 1;
     E_line_request_output 6%nat "flashrom" 1;
     E_line_request_output 7%nat "flashrom" 1;
     E_line_request_input 8%nat "flashrom";
     msg_perr ("Requesting GPIO lines failed" +:+ nl);
     E_line_release_bulk [5; 6; 7; 8]%nat;
     E_chip_close 0%nat].

(** The state a second successful initialisation leaves, begun in
    [s_armed]: the first backend is untouched, the new one is beside it. *)
Definition s_two_backends : state :=
  mk_state
    (<[ 2%positive := armed 0%nat 5%nat 6%nat 7%nat 8%nat ]>
       {[ 1%positive := armed 0%nat 5%nat 6%nat 7%nat 8%nat ]})
    [E_chip_open_by_number 0;
     E_chip_get_lines 0%nat [5; 6; 7; 8];
     E_line_request_output 5%nat "flashrom" 1;
     E_line_request_output 6%nat "flashrom" 1;
     E_line_request_output 7%nat "flashrom" 1;
     E_line_request_input 8%nat "flashrom";
     E_register_shutdown 2%positive;
     E_register_spi_bitbang_master 2%positive].

(** A state that was allocated and never filled. *)
Definition s_blank : state := mk_state {[ 1%positive := zeroed ]} [].


Definition s_armed : state :=
  mk_state {[ 1%positive := armed 0%nat 5%nat 6%nat 7%nat 8%nat ]} [].

(** ** The paths of the initialisation

    What is left of the state at [err_exit] and in [linux_gpiod_spi_shutdown]
    is released under two guards: the bulk when it holds a line, the chip
    when its pointer is not null. *)
Definition release_if_held (b : gpiod_line_bulk) : list event :=
  match b with
  | [] => []
  | _ :: _ => [E_line_release_bulk b]
  end.

Definition close_if_open (c : option gpiod_chip) : list event :=
  match c with
  | Some c => [E_chip_close c]
  | None => []
  end.

Definition is_diagnostic (e : event) : bool :=
  match e with msg_perr _ => true | _ => false end.
Definition is_line_io (e : event) : bool :=
  match e with
  | E_line_set_value _ _ | E_line_get_value _ => true
  | _ => false
  end.
Definition is_registration (e : event) : bool :=
  match e with
  | E_register_shutdown _ | E_register_spi_bitbang_master _ => true
  | _ => false
  end.

Definition diagnostics (t : list event) : list event :=
  List.filter is_diagnostic t.
Definition line_ios (t : list event) : list event := List.filter is_line_io t.
Definition registrations (t : list event) : list event :=
  List.filter is_registration t.

(** The state once the four lines are assigned from the bulk [b]. *)
Definition assigned (c : gpiod_chip) (b : gpiod_line_bulk)
    (l0 l1 l2 l3 : gpiod_line) : gpiod_spi_data :=
  mk_data (Some c) b (Some l0) (Some l1) (Some l2) (Some l3).

(** The eight ways through [linux_gpiod_spi_init], one per [return] or
    [goto err_exit] of the C function: for a world [w] and a heap [h], the
    value returned, the heap left and the calls made. *)
Inductive init_path (w : world) (h : gmap loc gpiod_spi_data)
  : Z -> gmap loc gpiod_spi_data -> list event -> Prop :=
| path_missing_parameter (name : string) :
    first_missing w param_str = Some name ->
    init_path w h 1 h [missing_diagnostic name]
| path_no_memory :
    first_missing w param_str = None ->
    calloc_fails w = true ->
    init_path w h 1 h
      [msg_perr ("Unable to allocate space for SPI master data" +:+ nl)]
| path_open_failed :
    first_missing w param_str = None ->
    calloc_fails w = false ->
    gpiod_chip_open_by_number w (gpiochip_number w) = None ->
    init_path w h 1 h
      [E_chip_open_by_number (gpiochip_number w);
       msg_perr ("Failed to open gpiochip: " +:+ strerror_errno w +:+ nl)]
| path_lookup_failed (c : gpiod_chip) (rc : Z) (b : gpiod_line_bulk) :
    first_missing w param_str = None ->
    calloc_fails w = false ->
    gpiod_chip_open_by_number w (gpiochip_number w) = Some c ->
    gpiod_chip_get_lines w c (line_offsets w) = (rc, b) ->
    rc <> 0 ->
    init_path w h 1 h
      ([E_chip_open_by_number (gpiochip_number w);
        E_chip_get_lines c (line_offsets w);
        msg_perr ("Error getting GPIO lines" +:+ nl)] ++
       release_if_held b ++ [E_chip_close c])
| path_request_failed (c : gpiod_chip) (l0 l1 l2 l3 : gpiod_line)
    (more : list gpiod_line) :
    first_missing w param_str = None ->
    calloc_fails w = false ->
    gpiod_chip_open_by_number w (gpiochip_number w) = Some c ->
    gpiod_chip_get_lines w c (line_offsets w)
      = (0, l0 :: l1 :: l2 :: l3 :: more) ->
    requests_result w l0 l1 l2 l3 < 0 ->
    init_path w h 1 h
      (acquisition w c l0 l1 l2 l3 ++
       [requests_failed_diagnostic;
        E_line_release_bulk (l0 :: l1 :: l2 :: l3 :: more);
        E_chip_close c])
| path_shutdown_not_registered (c : gpiod_chip) (l0 l1 l2 l3 : gpiod_line)
    (more : list gpiod_line) :
    first_missing w param_str = None ->
    calloc_fails w = false ->
    gpiod_chip_open_by_number w (gpiochip_number w) = Some c ->
    gpiod_chip_get_lines w c (line_offsets w)
      = (0, l0 :: l1 :: l2 :: l3 :: more) ->
    0 <= requests_result w l0 l1 l2 l3 ->
    register_shutdown w <> 0 ->
    init_path w h 1 h
      (acquisition w c l0 l1 l2 l3 ++
       [E_register_shutdown (fresh (dom h));
        E_line_release_bulk (l0 :: l1 :: l2 :: l3 :: more);
        E_chip_close c])
| path_master_not_registered (c : gpiod_chip) (l0 l1 l2 l3 : gpiod_line)
    (more : list gpiod_line) :
    first_missing w param_str = None ->
    calloc_fails w = false ->
    gpiod_chip_open_by_number w (gpiochip_number w) = Some c ->
    gpiod_chip_get_lines w c (line_offsets w)
      = (0, l0 :: l1 :: l2 :: l3 :: more) ->
    0 <= requests_result w l0 l1 l2 l3 ->
    register_shutdown w = 0 ->
    register_spi_bitbang_master w <> 0 ->
    init_path w h 1
      (<[fresh (dom h) :=
           assigned c (l0 :: l1 :: l2 :: l3 :: more) l0 l1 l2 l3]> h)
      (acquisition w c l0 l1 l2 l3 ++
       [E_register_shutdown (fresh (dom h));
        E_register_spi_bitbang_master (fresh (dom h))])
| path_success (c : gpiod_chip) (l0 l1 l2 l3 : gpiod_line)
    (more : list gpiod_line) :
    first_missing w param_str = None ->
    calloc_fails w = false ->
    gpiod_chip_open_by_number w (gpiochip_number w) = Some c ->
    gpiod_chip_get_lines w c (line_offsets w)
      = (0, l0 :: l1 :: l2 :: l3 :: more) ->
    0 <= requests_result w l0 l1 l2 l3 ->
    register_shutdown w = 0 ->
    register_spi_bitbang_master w = 0 ->
    init_path w h 0
      (<[fresh (dom h) :=
           assigned c (l0 :: l1 :: l2 :: l3 :: more) l0 l1 l2 l3]> h)
      (acquisition w c l0 l1 l2 l3 ++
       [E_register_shutdown (fresh (dom h));
        E_register_spi_bitbang_master (fresh (dom h))]).

(** ** Calls through the table of operations

    The generic bit-bang engine drives the lines through the four entries
    of [bitbang_spi_master_gpiod], in any order and any number of times.  A
    call is one entry with its argument; every call comes with the answers
    libgpiod gives at that moment, so the same write may succeed once and
    fail later. *)
Inductive op_call : Type :=
| Set_cs (val : Z)
| Set_sck (val : Z)
| Set_mosi (val : Z)
| Get_miso.

(** One call: the value read for [Get_miso], nothing for the others. *)
Definition run_op (m : bitbang_spi_master) (w : world) (o : op_call)
    (spi_data : loc) : M (option Z) :=
  match o with
  | Set_cs val => set_cs m w val spi_data;; mret None
  | Set_sck val => set_sck m w val spi_data;; mret None
  | Set_mosi val => set_mosi m w val spi_data;; mret None
  | Get_miso => r ← get_miso m w spi_data; mret (Some r)
  end.

Fixpoint run_ops (m : bitbang_spi_master) (calls : list (world * op_call))
    (spi_data : loc) : M (list (option Z)) :=
  match calls with
  | [] => mret []
  | (w, o) :: rest =>
      r ← run_op m w o spi_data;
      rs ← run_ops m rest spi_data;
      mret (r :: rs)
  end.

(** The line an operation works on. *)
Definition line_of (o : op_call) (d : gpiod_spi_data) : option gpiod_line :=
  match o with
  | Set_cs _ => cs_line d
  | Set_sck _ => sck_line d
  | Set_mosi _ => mosi_line d
  | Get_miso => miso_line d
  end.

(** The diagnostic of an operation. *)
Definition failure_text (o : op_call) : string :=
  match o with
  | Set_cs _ => "Setting cs line failed" +:+ nl
  | Set_sck _ => "Setting sck line failed" +:+ nl
  | Set_mosi _ => "Setting sck line failed" +:+ nl
  | Get_miso => "Getting miso line failed" +:+ nl
  end.

(** The libgpiod call of an operation on line [l], and its answer. *)
Definition io_event (o : op_call) (l : gpiod_line) : event :=
  match o with
  | Set_cs val | Set_sck val | Set_mosi val => E_line_set_value l val
  | Get_miso => E_line_get_value l
  end.

Definition io_answer (w : world) (o : op_call) (l : gpiod_line) : Z :=
  match o with
  | Set_cs val | Set_sck val | Set_mosi val => gpiod_line_set_value w l val
  | Get_miso => gpiod_line_get_value w l
  end.


(** What an operation returns to the engine: the value read, or nothing. *)
Definition op_result (w : world) (o : op_call) (l : gpiod_line) : option Z :=
  match o with
  | Get_miso => Some (gpiod_line_get_value w l)
  | _ => None
  end.

(** The events of the operations: a line value read or written, or a
    diagnostic. *)
Definition is_op_event (e : event) : bool := is_line_io e || is_diagnostic e.

(** All four line pointers of the state are set. *)
Definition lines_assigned (d : gpiod_spi_data) : Prop :=
  is_Some (cs_line d) /\ is_Some (sck_line d) /\
  is_Some (mosi_line d) /\ is_Some (miso_line d).

(** One byte-less transfer: select, clock a bit out and in, deselect.  The
    write of the clock fails the second time. *)
Definition sample_calls : list (world * op_call) :=
  [(w_ok, Set_cs 0); (w_ok, Set_mosi 1); (w_ok, Set_sck 1);
   (w_reads_high, Get_miso); (w_io_error, Set_sck 0); (w_ok, Set_cs 1)].

(** ** Symbolic execution *)

Lemma bind_run {A B : Type} (m : M A) (k : A -> M B) (s : state) :
  (m ≫= k) s = match m s with Some (a, s') => k a s' | None => None end.
Proof. reflexivity. Qed.

Lemma added_app (h h' : gmap loc gpiod_spi_data) (t new : list event) :
  added (mk_state h t) (mk_state h' (t ++ new)) = new.
Proof. unfold added; cbn [trace]. by rewrite drop_app_length. Qed.

Lemma fresh_not_live (h : gmap loc gpiod_spi_data) : h !! fresh (dom h) = None.
Proof. apply not_elem_of_dom, is_fresh. Qed.

Lemma free_fresh (h : gmap loc gpiod_spi_data) (d : gpiod_spi_data) :
  delete (fresh (dom h)) (<[fresh (dom h) := d]> h) = h.
Proof. rewrite delete_insert_eq. apply delete_id, fresh_not_live. Qed.

Lemma parse_params_run (w : world) (names : list string) (s : state) :
  parse_params w names s =
  match first_missing w names with
  | Some name =>
      Some (None, mk_state (heap s) (trace s ++ [missing_diagnostic name]))
  | None => Some (Some (param_value w <$> names), s)
  end.
Proof.
  revert s; induction names as [|name rest IH]; intros s; [reflexivity|].
  cbn [parse_params first_missing fmap list_fmap].
  unfold param_value at 1.
  destruct (extract_programmer_param_str w name) as [param|]; [|reflexivity].
  rewrite bind_run, IH.
  destruct (first_missing w rest); reflexivity.
Qed.

Lemma first_missing_spec (w : world) (names : list string) (name : string) :
  first_missing w names = Some name ->
  exists before after,
    names = (before ++ name :: after)%list /\
    extract_programmer_param_str w name = None /\
    Forall (fun n => is_Some (extract_programmer_param_str w n)) before.
Proof.
  induction names as [|n rest IH]; [discriminate|].
  cbn [first_missing].
  destruct (extract_programmer_param_str w n) as [v|] eqn:E.
  - intros H. destruct (IH H) as (before & after & -> & Hnone & Hall).
    exists (n :: before), after. repeat split; [done|].
    constructor; [by rewrite E | done].
  - intros [= <-]. exists [], rest. repeat split; [done | constructor].
Qed.

Lemma first_missing_exists (w : world) (names : list string) (name : string) :
  name ∈ names -> extract_programmer_param_str w name = None ->
  is_Some (first_missing w names).
Proof.
  induction names as [|n rest IH]; [by intros ?%elem_of_nil|].
  intros [->|Hin]%elem_of_cons Hnone; cbn [first_missing].
  - rewrite Hnone. eauto.
  - destruct (extract_programmer_param_str w n); eauto.
Qed.

Section Steps.
Context (w : world).
Implicit Types (h : gmap loc gpiod_spi_data) (t : list event).

Lemma run_ret {A : Type} (a : A) (s : state) :
  (mret a : M A) s = Some (a, s).
Proof. reflexivity. Qed.

Lemma run_emit h t (e : event) :
  emit e (mk_state h t) = Some (tt, mk_state h (t ++ [e])).
Proof. reflexivity. Qed.

Lemma run_load h t (p : loc) (d : gpiod_spi_data) :
  load p (mk_state (<[p := d]> h) t) = Some (d, mk_state (<[p := d]> h) t).
Proof. unfold load; cbn [heap]. by rewrite lookup_insert_eq. Qed.

Lemma run_store h t (p : loc) (d : gpiod_spi_data)
    (f : gpiod_spi_data -> gpiod_spi_data) :
  store p f (mk_state (<[p := d]> h) t) =
  Some (tt, mk_state (<[p := f d]> h) t).
Proof.
  unfold store; cbn [heap trace].
  by rewrite lookup_insert_eq, insert_insert_eq.
Qed.

Lemma run_free_fresh h t (d : gpiod_spi_data) :
  free (fresh (dom h)) (mk_state (<[fresh (dom h) := d]> h) t) =
  Some (tt, mk_state h t).
Proof.
  unfold free; cbn [heap trace].
  by rewrite lookup_insert_eq, free_fresh.
Qed.

Lemma run_calloc h t :
  calloc_fails w = false ->
  calloc w (mk_state h t) =
  Some (Some (fresh (dom h)), mk_state (<[fresh (dom h) := zeroed]> h) t).
Proof. intros H. unfold calloc. by rewrite H. Qed.

Lemma run_chip_open h t (num : Z) :
  call_chip_open_by_number w num (mk_state h t) =
  Some (gpiod_chip_open_by_number w num,
        mk_state h (t ++ [E_chip_open_by_number num])).
Proof. reflexivity. Qed.

Lemma run_chip_get_lines h t (c : gpiod_chip) (offsets : list Z) (p : loc)
    (d : gpiod_spi_data) :
  call_chip_get_lines w c offsets p (mk_state (<[p := d]> h) t) =
  Some ((gpiod_chip_get_lines w c offsets).1,
        mk_state (<[p := set_bulk (gpiod_chip_get_lines w c offsets).2 d]> h)
                 (t ++ [E_chip_get_lines c offsets])).
Proof.
  unfold call_chip_get_lines.
  rewrite bind_run, run_emit; cbv beta iota.
  rewrite bind_run, run_store. reflexivity.
Qed.

Lemma run_request_output h t (r : role) (l : gpiod_line) (consumer : string)
    (v : Z) :
  call_line_request_output w r (Some l) consumer v (mk_state h t) =
  Some (gpiod_line_request w r l,
        mk_state h (t ++ [E_line_request_output l consumer v])).
Proof. reflexivity. Qed.

Lemma run_request_input h t (r : role) (l : gpiod_line) (consumer : string) :
  call_line_request_input w r (Some l) consumer (mk_state h t) =
  Some (gpiod_line_request w r l,
        mk_state h (t ++ [E_line_request_input l consumer])).
Proof. reflexivity. Qed.

Lemma run_set_value h t (l : gpiod_line) (v : Z) :
  call_line_set_value w (Some l) v (mk_state h t) =
  Some (gpiod_line_set_value w l v, mk_state h (t ++ [E_line_set_value l v])).
Proof. reflexivity. Qed.

Lemma run_get_value h t (l : gpiod_line) :
  call_line_get_value w (Some l) (mk_state h t) =
  Some (gpiod_line_get_value w l, mk_state h (t ++ [E_line_get_value l])).
Proof. reflexivity. Qed.

Lemma run_register_shutdown h t (p : loc) :
  call_register_shutdown w p (mk_state h t) =
  Some (register_shutdown w, mk_state h (t ++ [E_register_shutdown p])).
Proof. reflexivity. Qed.

Lemma run_register_master h t (p : loc) :
  call_register_spi_bitbang_master w p (mk_state h t) =
  Some (register_spi_bitbang_master w,
        mk_state h (t ++ [E_register_spi_bitbang_master p])).
Proof. reflexivity. Qed.

Lemma run_load_live h t (p : loc) (d : gpiod_spi_data) :
  h !! p = Some d -> load p (mk_state h t) = Some (d, mk_state h t).
Proof. intros H. unfold load; cbn [heap]. by rewrite H. Qed.

Lemma run_free_live h t (p : loc) (d : gpiod_spi_data) :
  h !! p = Some d ->
  free p (mk_state h t) = Some (tt, mk_state (delete p h) t).
Proof. intros H. unfold free; cbn [heap trace]. by rewrite H. Qed.

Lemma run_load_freed h t (p : loc) :
  load p (mk_state (delete p h) t) = None.
Proof. unfold load; cbn [heap]. by rewrite lookup_delete_eq. Qed.

Lemma run_when_true (m : M unit) (s : state) : when true m s = m s.
Proof. reflexivity. Qed.

Lemma run_when_false (m : M unit) (s : state) : when false m s = Some (tt, s).
Proof. reflexivity. Qed.

(** The label [err_exit] before the state was allocated. *)
Lemma run_err_exit_early (s : state) : err_exit None None s = Some (1, s).
Proof. reflexivity. Qed.

(** The label [err_exit] once the state is allocated: the bulk is released
    if it holds a line, the state is freed, the chip is closed if it was
    opened. *)
Lemma run_err_exit h t (d : gpiod_spi_data) (c : option gpiod_chip) :
  err_exit (Some (fresh (dom h))) c
           (mk_state (<[fresh (dom h) := d]> h) t) =
  Some (1, mk_state h
             (t ++ (if 0 <? gpiod_line_bulk_num_lines (bulk d)
                    then [E_line_release_bulk (bulk d)] else [])
                ++ match c with Some c => [E_chip_close c] | None => [] end)).
Proof.
  unfold err_exit. rewrite !bind_run, run_load; cbv beta iota.
  rewrite bind_run.
  destruct (0 <? gpiod_line_bulk_num_lines (bulk d)).
  - rewrite run_when_true, run_emit; cbv beta iota.
    rewrite run_free_fresh; cbv beta iota.
    destruct c; rewrite ?bind_run, ?run_emit; cbv beta iota;
      rewrite run_ret, <- ?app_assoc, ?app_nil_r; reflexivity.
  - rewrite run_when_false; cbv beta iota.
    rewrite run_free_fresh; cbv beta iota.
    destruct c; rewrite ?bind_run, ?run_emit; cbv beta iota;
      rewrite run_ret, ?app_nil_r; reflexivity.
Qed.
End Steps.

Create Rewrite HintDb run.

#[local] Hint Rewrite @bind_run @run_ret run_emit run_load run_store
  run_free_fresh run_chip_open run_chip_get_lines run_request_output
  run_request_input run_set_value run_get_value run_register_shutdown
  run_register_master run_err_exit_early run_err_exit run_when_true
  run_when_false : run.

Ltac run :=
  repeat first
    [ progress autorewrite with run
    | progress cbv beta iota
    | progress simpl (gpiod_line_bulk_get_line _ _)
    | progress cbn [fst snd negb Z.eqb heap trace]
    | progress cbv beta iota delta
        [chip bulk cs_line sck_line mosi_line miso_line
         set_chip set_bulk set_cs_line set_sck_line set_mosi_line
         set_miso_line zeroed armed] ].

(** One shutdown of a state that holds the chip and the four lines. *)
Lemma run_shutdown_armed (h : gmap loc gpiod_spi_data) (t : list event)
    (p : loc) (c : gpiod_chip) (l0 l1 l2 l3 : gpiod_line) :
  h !! p = Some (armed c l0 l1 l2 l3) ->
  linux_gpiod_spi_shutdown p (mk_state h t) =
  Some (0, mk_state (delete p h)
             (t ++ [E_line_release_bulk [l0; l1; l2; l3]; E_chip_close c])).
Proof.
  intros Hd. unfold linux_gpiod_spi_shutdown.
  rewrite bind_run, (run_load_live h t p _ Hd); cbv beta iota.
  change (0 <? gpiod_line_bulk_num_lines (bulk (armed c l0 l1 l2 l3)))
    with true.
  run. rewrite (run_load_live h _ p _ Hd). run.
  rewrite (run_free_live h _ p _ Hd). run.
  rewrite <- app_assoc. reflexivity.
Qed.

(** Entry of the function: the five parameters are read and the state
    allocated; the run goes on at the call that opens the chip. *)
Ltac enter_init w Hparams Hcalloc :=
  unfold linux_gpiod_spi_init;
  rewrite bind_run, parse_params_run, Hparams;
  fold (param_int w); fold (gpiochip_number w); fold (line_offsets w);
  rewrite bind_run.

(** ** Initialisation: the early exits *)

(** C5: when one of the five parameters cs, sck, mosi, miso, gpiochip is
    absent, initialisation returns 1 after one diagnostic and nothing else:
    no call into libgpiod, no memory touched.  The diagnostic names the
    first absent parameter in that order, which is the given one whenever
    it is the only one absent. *)
Theorem init_missing_parameter (w : world) (s : state) (name : string) :
  name ∈ param_str ->
  extract_programmer_param_str w name = None ->
  exists (missing : string) (s' : state),
    first_missing w param_str = Some missing /\
    missing ∈ param_str /\
    extract_programmer_param_str w missing = None /\
    ((forall n, n ∈ param_str -> n <> name ->
        is_Some (extract_programmer_param_str w n)) -> missing = name) /\
    linux_gpiod_spi_init w s = Some (1, s') /\
    heap s' = heap s /\
    added s s' = [missing_diagnostic missing] /\
    gpio_calls (added s s') = [].
Proof.
  intros Hin Hnone.
  destruct (first_missing_exists w param_str name Hin Hnone) as [missing Hm].
  destruct (first_missing_spec w param_str missing Hm)
    as (before & after & Hsplit & Hmnone & Hall).
  assert (Hmin : missing ∈ param_str).
  { rewrite Hsplit. apply elem_of_app. right. apply elem_of_cons. by left. }
  exists missing, (mk_state (heap s) (trace s ++ [missing_diagnostic missing])).
  destruct s as [h t]. rewrite added_app. repeat split; try done.
  - intros Hothers. destruct (decide (missing = name)) as [|Hne]; [done|].
    destruct (Hothers missing) as [v Hv]; [done|done|congruence].
  - unfold linux_gpiod_spi_init. rewrite bind_run, parse_params_run, Hm.
    reflexivity.
Qed.

Lemma init_missing_parameter_witness :
  exists (missing : string) (s' : state),
    first_missing w_no_miso param_str = Some missing /\
    missing ∈ param_str /\
    extract_programmer_param_str w_no_miso missing = None /\
    ((forall n, n ∈ param_str -> n <> "miso" ->
        is_Some (extract_programmer_param_str w_no_miso n)) -> missing = "miso") /\
    linux_gpiod_spi_init w_no_miso s_empty = Some (1, s') /\
    heap s' = heap s_empty /\
    added s_empty s' = [missing_diagnostic missing] /\
    gpio_calls (added s_empty s') = [].
Proof.
  apply (init_missing_parameter w_no_miso s_empty "miso").
  - apply (bool_decide_unpack _). reflexivity.
  - reflexivity.
Defined.

(** C9: when the parameters are there and [calloc] returns NULL,
    initialisation prints its diagnostic and returns 1; no call into libgpiod
    is made and the heap is as before. *)
Theorem init_calloc_fails (w : world) (s : state) :
  first_missing w param_str = None ->
  calloc_fails w = true ->
  exists s' : state,
    linux_gpiod_spi_init w s = Some (1, s') /\
    heap s' = heap s /\
    added s s' =
      [msg_perr ("Unable to allocate space for SPI master data" +:+ nl)] /\
    gpio_calls (added s s') = [].
Proof.
  intros Hp Ha. destruct s as [h t].
  eexists. split.
  - enter_init w Hp Ha. unfold calloc. rewrite Ha. run. reflexivity.
  - rewrite added_app. done.
Qed.

Lemma init_calloc_fails_witness :
  exists s' : state,
    linux_gpiod_spi_init w_no_memory s_empty = Some (1, s') /\
    heap s' = heap s_empty /\
    added s_empty s' =
      [msg_perr ("Unable to allocate space for SPI master data" +:+ nl)] /\
    gpio_calls (added s_empty s') = [].
Proof. apply (init_calloc_fails w_no_memory s_empty); reflexivity. Defined.

(** ** Initialisation: from the requests on *)

Section Acquired.
Context (w : world) (c : gpiod_chip) (l0 l1 l2 l3 : gpiod_line).
Context (Hup : lines_looked_up w c l0 l1 l2 l3).
Implicit Types (h : gmap loc gpiod_spi_data) (t : list event).

Ltac to_requests h t :=
  destruct Hup as (Hp & Ha & Ho & Hl);
  enter_init w Hp Ha; rewrite (run_calloc w h t Ha); run;
  rewrite Ho; run; rewrite Hl; run;
  fold (requests_result w l0 l1 l2 l3).

Lemma init_requests_negative h t :
  requests_result w l0 l1 l2 l3 < 0 ->
  linux_gpiod_spi_init w (mk_state h t) =
  Some (1, mk_state h
             (t ++ acquisition w c l0 l1 l2 l3 ++
                [requests_failed_diagnostic;
                 E_line_release_bulk [l0; l1; l2; l3];
                 E_chip_close c])).
Proof.
  intros Hr. to_requests h t.
  destruct (Z.ltb_spec (requests_result w l0 l1 l2 l3) 0); [|lia].
  run. cbn. rewrite <- !app_assoc. reflexivity.
Qed.

Lemma init_requests_nonnegative h t :
  0 <= requests_result w l0 l1 l2 l3 ->
  linux_gpiod_spi_init w (mk_state h t) =
  let p := fresh (dom h) in
  if negb (register_shutdown w =? 0) then
    Some (1, mk_state h
               (t ++ acquisition w c l0 l1 l2 l3 ++
                  [E_register_shutdown p;
                   E_line_release_bulk [l0; l1; l2; l3];
                   E_chip_close c]))
  else
    Some (if negb (register_spi_bitbang_master w =? 0) then 1 else 0,
          mk_state (<[p := armed c l0 l1 l2 l3]> h)
               (t ++ acquisition w c l0 l1 l2 l3 ++
                  [E_register_shutdown p;
                   E_register_spi_bitbang_master p])).
Proof.
  intros Hr. to_requests h t.
  destruct (Z.ltb_spec (requests_result w l0 l1 l2 l3) 0); [lia|].
  run. destruct (register_shutdown w =? 0); run.
  - destruct (register_spi_bitbang_master w =? 0); run;
      cbn; rewrite <- !app_assoc; reflexivity.
  - cbn. rewrite <- !app_assoc. reflexivity.
Qed.
End Acquired.

Lemma requests_result_neg (w : world) (l0 l1 l2 l3 : gpiod_line) :
  requests_result w l0 l1 l2 l3 < 0 <->
  gpiod_line_request w CS l0 < 0 \/ gpiod_line_request w SCK l1 < 0 \/
  gpiod_line_request w MOSI l2 < 0 \/ gpiod_line_request w MISO l3 < 0.
Proof. unfold requests_result. rewrite !Z.lor_neg. tauto. Qed.

(** C1: when the run has reached the requests and one of the four returns a
    negative value, initialisation returns 1, and before it returns the bulk
    of all four lines is released by one call and the chip is closed; the
    state is freed, so the heap is as before. *)
Theorem init_request_failure (w : world) (s : state) (c : gpiod_chip)
    (l0 l1 l2 l3 : gpiod_line) :
  lines_looked_up w c l0 l1 l2 l3 ->
  gpiod_line_request w CS l0 < 0 \/ gpiod_line_request w SCK l1 < 0 \/
  gpiod_line_request w MOSI l2 < 0 \/ gpiod_line_request w MISO l3 < 0 ->
  exists s' : state,
    linux_gpiod_spi_init w s = Some (1, s') /\
    heap s' = heap s /\
    added s s' =
      (acquisition w c l0 l1 l2 l3 ++
       [requests_failed_diagnostic;
        E_line_release_bulk [l0; l1; l2; l3];
        E_chip_close c])%list /\
    releases (added s s') = [E_line_release_bulk [l0; l1; l2; l3]] /\
    closes (added s s') = [E_chip_close c].
Proof.
  intros Hup Hneg%requests_result_neg. destruct s as [h t].
  eexists. split; [by apply init_requests_negative|].
  rewrite added_app. done.
Qed.

Lemma init_request_failure_witness :
  exists s' : state,
    linux_gpiod_spi_init w_miso_busy s_empty = Some (1, s') /\
    heap s' = heap s_empty /\
    added s_empty s' =
      (acquisition w_miso_busy 0%nat 5%nat 6%nat 7%nat 8%nat ++
       [requests_failed_diagnostic;
        E_line_release_bulk [5; 6; 7; 8]%nat;
        E_chip_close 0%nat])%list /\
    releases (added s_empty s') = [E_line_release_bulk [5; 6; 7; 8]%nat] /\
    closes (added s_empty s') = [E_chip_close 0%nat].
Proof.
  apply (init_request_failure w_miso_busy s_empty 0%nat 5%nat 6%nat 7%nat 8%nat).
  - repeat split; reflexivity.
  - right; right; right. reflexivity.
Defined.

(** C3: once the lines are looked up, the four requests are made, each
    once and in the order cs, sck, mosi, miso, whatever the earlier ones
    returned; their results are combined with bitwise or, the combination is
    negative exactly when one of the four results is, and the failure branch
    (diagnostic, release, close, return 1) is taken exactly then: otherwise
    the run goes on to register the shutdown function. *)
Theorem init_requests_all_then_or (w : world) (s : state) (c : gpiod_chip)
    (l0 l1 l2 l3 : gpiod_line) :
  lines_looked_up w c l0 l1 l2 l3 ->
  let r := requests_result w l0 l1 l2 l3 in
  exists (ret : Z) (s' : state) (rest : list event),
    linux_gpiod_spi_init w s = Some (ret, s') /\
    added s s' = (acquisition w c l0 l1 l2 l3 ++ rest)%list /\
    requests (added s s') =
      [E_line_request_output l0 CONSUMER 1;
       E_line_request_output l1 CONSUMER 1;
       E_line_request_output l2 CONSUMER 1;
       E_line_request_input l3 CONSUMER] /\
    (r < 0 <->
       gpiod_line_request w CS l0 < 0 \/ gpiod_line_request w SCK l1 < 0 \/
       gpiod_line_request w MOSI l2 < 0 \/ gpiod_line_request w MISO l3 < 0) /\
    (r < 0 <-> head rest = Some requests_failed_diagnostic) /\
    (r < 0 ->
       ret = 1 /\
       rest = [requests_failed_diagnostic;
               E_line_release_bulk [l0; l1; l2; l3];
               E_chip_close c]) /\
    (0 <= r -> head rest = Some (E_register_shutdown (fresh (dom (heap s))))).
Proof.
  intros Hup r. destruct s as [h t].
  destruct (Z.lt_ge_cases r 0) as [Hr|Hr].
  - eexists _, _, _. split; [by apply init_requests_negative|].
    rewrite added_app. repeat split; try done; try lia.
    all: apply requests_result_neg.
  - pose proof (init_requests_nonnegative w c l0 l1 l2 l3 Hup h t Hr) as Hrun.
    cbv zeta in Hrun.
    destruct (negb (register_shutdown w =? 0));
      (eexists _, _, _; split; [exact Hrun|]);
      rewrite added_app; repeat split; try done; try lia.
    all: apply requests_result_neg.
Qed.

Lemma init_requests_all_then_or_witness :
  let r := requests_result w_miso_busy 5%nat 6%nat 7%nat 8%nat in
  exists (ret : Z) (s' : state) (rest : list event),
    linux_gpiod_spi_init w_miso_busy s_empty = Some (ret, s') /\
    added s_empty s' =
      (acquisition w_miso_busy 0%nat 5%nat 6%nat 7%nat 8%nat ++ rest)%list /\
    requests (added s_empty s') =
      [E_line_request_output 5%nat CONSUMER 1;
       E_line_request_output 6%nat CONSUMER 1;
       E_line_request_output 7%nat CONSUMER 1;
       E_line_request_input 8%nat CONSUMER] /\
    (r < 0 <->
       gpiod_line_request w_miso_busy CS 5%nat < 0 \/
       gpiod_line_request w_miso_busy SCK 6%nat < 0 \/
       gpiod_line_request w_miso_busy MOSI 7%nat < 0 \/
       gpiod_line_request w_miso_busy MISO 8%nat < 0) /\
    (r < 0 <-> head rest = Some requests_failed_diagnostic) /\
    (r < 0 ->
       ret = 1 /\
       rest = [requests_failed_diagnostic;
               E_line_release_bulk [5; 6; 7; 8]%nat;
               E_chip_close 0%nat]) /\
    (0 <= r ->
       head rest = Some (E_register_shutdown (fresh (dom (heap s_empty))))).
Proof.
  apply (init_requests_all_then_or w_miso_busy s_empty 0%nat 5%nat 6%nat 7%nat
           8%nat).
  repeat split; reflexivity.
Defined.

(** C4: when the chip opens, the lookup and the four requests succeed and
    both registrations return 0, initialisation returns 0; cs, sck and mosi
    were requested as outputs with default value 1 and miso as input, for the
    consumer "flashrom"; no release and no close was called, and the state
    is live, with the chip, the bulk and the four lines in it. *)
Theorem init_success (w : world) (s : state) (c : gpiod_chip)
    (l0 l1 l2 l3 : gpiod_line) :
  lines_looked_up w c l0 l1 l2 l3 ->
  0 <= gpiod_line_request w CS l0 ->
  0 <= gpiod_line_request w SCK l1 ->
  0 <= gpiod_line_request w MOSI l2 ->
  0 <= gpiod_line_request w MISO l3 ->
  register_shutdown w = 0 ->
  register_spi_bitbang_master w = 0 ->
  exists s' : state,
    linux_gpiod_spi_init w s = Some (0, s') /\
    heap s' = <[fresh (dom (heap s)) := armed c l0 l1 l2 l3]> (heap s) /\
    added s s' =
      [E_chip_open_by_number (gpiochip_number w);
       E_chip_get_lines c (line_offsets w);
       E_line_request_output l0 "flashrom" 1;
       E_line_request_output l1 "flashrom" 1;
       E_line_request_output l2 "flashrom" 1;
       E_line_request_input l3 "flashrom";
       E_register_shutdown (fresh (dom (heap s)));
       E_register_spi_bitbang_master (fresh (dom (heap s)))] /\
    releases (added s s') = [] /\
    closes (added s s') = [].
Proof.
  intros Hup H0 H1 H2 H3 Hs Hm. destruct s as [h t].
  assert (Hr : 0 <= requests_result w l0 l1 l2 l3).
  { pose proof (requests_result_neg w l0 l1 l2 l3). lia. }
  pose proof (init_requests_nonnegative w c l0 l1 l2 l3 Hup h t Hr) as Hrun.
  rewrite Hs, Hm in Hrun. cbn in Hrun.
  eexists. split; [exact Hrun|].
  rewrite added_app. done.
Qed.

Lemma init_success_witness :
  exists s' : state,
    linux_gpiod_spi_init w_ok s_empty = Some (0, s') /\
    heap s' =
      <[fresh (dom (heap s_empty)) := armed 0%nat 5%nat 6%nat 7%nat 8%nat]>
        (heap s_empty) /\
    added s_empty s' =
      [E_chip_open_by_number (gpiochip_number w_ok);
       E_chip_get_lines 0%nat (line_offsets w_ok);
       E_line_request_output 5%nat "flashrom" 1;
       E_line_request_output 6%nat "flashrom" 1;
       E_line_request_output 7%nat "flashrom" 1;
       E_line_request_input 8%nat "flashrom";
       E_register_shutdown (fresh (dom (heap s_empty)));
       E_register_spi_bitbang_master (fresh (dom (heap s_empty)))] /\
    releases (added s_empty s') = [] /\
    closes (added s_empty s') = [].
Proof.
  apply (init_success w_ok s_empty 0%nat 5%nat 6%nat 7%nat 8%nat);
    [repeat split; reflexivity | by vm_compute .. | reflexivity | reflexivity].
Defined.

(** C7: when everything up to the registration of the shutdown function
    succeeds and [register_spi_bitbang_master] returns non-zero,
    initialisation returns 1 and has itself called neither release nor close
    nor freed the state: the state handed to [register_shutdown] is still
    live.  The registered [linux_gpiod_spi_shutdown], run on it afterwards,
    is then the one release, the one close and the free of the whole run. *)
Theorem init_master_registration_failure (w : world) (s : state)
    (c : gpiod_chip) (l0 l1 l2 l3 : gpiod_line) :
  lines_looked_up w c l0 l1 l2 l3 ->
  0 <= requests_result w l0 l1 l2 l3 ->
  register_shutdown w = 0 ->
  register_spi_bitbang_master w <> 0 ->
  exists s' : state,
    linux_gpiod_spi_init w s = Some (1, s') /\
    heap s' !! fresh (dom (heap s)) = Some (armed c l0 l1 l2 l3) /\
    added s s' =
      (acquisition w c l0 l1 l2 l3 ++
       [E_register_shutdown (fresh (dom (heap s)));
        E_register_spi_bitbang_master (fresh (dom (heap s)))])%list /\
    releases (added s s') = [] /\
    closes (added s s') = [] /\
    exists s'' : state,
      linux_gpiod_spi_shutdown (fresh (dom (heap s))) s' = Some (0, s'') /\
      heap s'' = heap s /\
      releases (added s s'') = [E_line_release_bulk [l0; l1; l2; l3]] /\
      closes (added s s'') = [E_chip_close c].
Proof.
  intros Hup Hr Hs Hm. destruct s as [h t].
  pose proof (init_requests_nonnegative w c l0 l1 l2 l3 Hup h t Hr) as Hrun.
  rewrite Hs in Hrun. cbn [Z.eqb negb] in Hrun. cbv zeta in Hrun.
  apply Z.eqb_neq in Hm. rewrite Hm in Hrun. cbn [negb] in Hrun.
  eexists. split; [exact Hrun|].
  rewrite added_app. cbn [heap]. rewrite lookup_insert_eq.
  repeat split.
  eexists. split; [apply run_shutdown_armed, lookup_insert_eq|].
  rewrite free_fresh, <- !app_assoc, added_app. done.
Qed.

Lemma init_master_registration_failure_witness :
  exists s' : state,
    linux_gpiod_spi_init w_master_refused s_empty = Some (1, s') /\
    heap s' !! fresh (dom (heap s_empty)) =
      Some (armed 0%nat 5%nat 6%nat 7%nat 8%nat) /\
    added s_empty s' =
      (acquisition w_master_refused 0%nat 5%nat 6%nat 7%nat 8%nat ++
       [E_register_shutdown (fresh (dom (heap s_empty)));
        E_register_spi_bitbang_master (fresh (dom (heap s_empty)))])%list /\
    releases (added s_empty s') = [] /\
    closes (added s_empty s') = [] /\
    exists s'' : state,
      linux_gpiod_spi_shutdown (fresh (dom (heap s_empty))) s' = Some (0, s'') /\
      heap s'' = heap s_empty /\
      releases (added s_empty s'') = [E_line_release_bulk [5; 6; 7; 8]%nat] /\
      closes (added s_empty s'') = [E_chip_close 0%nat].
Proof.
  apply (init_master_registration_failure w_master_refused s_empty
           0%nat 5%nat 6%nat 7%nat 8%nat);
    [repeat split; reflexivity | by vm_compute | reflexivity | by vm_compute].
Defined.

(** ** Initialisation: the lookup fails *)

(** C6, as the code has it: when the chip was opened and the lookup returns
    non-zero, initialisation makes no request, closes the chip once and
    returns 1; the state is freed.  At [err_exit] the bulk is released when
    the failed lookup has left a line in it, and not otherwise. *)
Theorem init_lookup_failure (w : world) (s : state) (c : gpiod_chip) :
  first_missing w param_str = None ->
  calloc_fails w = false ->
  gpiod_chip_open_by_number w (gpiochip_number w) = Some c ->
  (gpiod_chip_get_lines w c (line_offsets w)).1 <> 0 ->
  let left := (gpiod_chip_get_lines w c (line_offsets w)).2 in
  exists s' : state,
    linux_gpiod_spi_init w s = Some (1, s') /\
    heap s' = heap s /\
    added s s' =
      ([E_chip_open_by_number (gpiochip_number w);
        E_chip_get_lines c (line_offsets w);
        msg_perr ("Error getting GPIO lines" +:+ nl)] ++
       match left with
       | [] => []
       | _ :: _ => [E_line_release_bulk left]
       end ++ [E_chip_close c])%list /\
    requests (added s s') = [] /\
    closes (added s s') = [E_chip_close c] /\
    releases (added s s') =
      match left with
      | [] => []
      | _ :: _ => [E_line_release_bulk left]
      end.
Proof.
  intros Hp Ha Ho Hrc left. destruct s as [h t].
  assert (Hrun : linux_gpiod_spi_init w (mk_state h t) =
    Some (1, mk_state h
      (t ++ [E_chip_open_by_number (gpiochip_number w);
             E_chip_get_lines c (line_offsets w);
             msg_perr ("Error getting GPIO lines" +:+ nl)] ++
            match left with
            | [] => []
            | _ :: _ => [E_line_release_bulk left]
            end ++ [E_chip_close c]))).
  { enter_init w Hp Ha. rewrite (run_calloc w h t Ha). run. rewrite Ho. run.
    apply Z.eqb_neq in Hrc. rewrite Hrc. run. fold left.
    destruct left; cbn; rewrite <- !app_assoc; reflexivity. }
  eexists. split; [exact Hrun|].
  rewrite added_app. destruct left; done.
Qed.

Lemma init_lookup_failure_witness :
  let left :=
    (gpiod_chip_get_lines w_lookup_empty 0%nat (line_offsets w_lookup_empty)).2
  in
  exists s' : state,
    linux_gpiod_spi_init w_lookup_empty s_empty = Some (1, s') /\
    heap s' = heap s_empty /\
    added s_empty s' =
      ([E_chip_open_by_number (gpiochip_number w_lookup_empty);
        E_chip_get_lines 0%nat (line_offsets w_lookup_empty);
        msg_perr ("Error getting GPIO lines" +:+ nl)] ++
       match left with
       | [] => []
       | _ :: _ => [E_line_release_bulk left]
       end ++ [E_chip_close 0%nat])%list /\
    requests (added s_empty s') = [] /\
    closes (added s_empty s') = [E_chip_close 0%nat] /\
    releases (added s_empty s') =
      match left with
      | [] => []
      | _ :: _ => [E_line_release_bulk left]
      end.
Proof.
  apply (init_lookup_failure w_lookup_empty s_empty 0%nat);
    [reflexivity | reflexivity | reflexivity | by vm_compute].
Defined.

(** C6 as the specification words it (no release call after a failed
    lookup) does not hold: here the chip opens and the lookup of the four
    lines returns -1 after it has put the first line into the bulk;
    initialisation returns 1 and has called release on that bulk. *)
Lemma init_lookup_failure_releases :
  first_missing w_lookup_partial param_str = None /\
  calloc_fails w_lookup_partial = false /\
  gpiod_chip_open_by_number w_lookup_partial (gpiochip_number w_lookup_partial)
    = Some 0%nat /\
  gpiod_chip_get_lines w_lookup_partial 0%nat (line_offsets w_lookup_partial)
    = (-1, [5%nat]) /\
  exists s' : state,
    linux_gpiod_spi_init w_lookup_partial s_empty = Some (1, s') /\
    added s_empty s' =
      [E_chip_open_by_number 0;
       E_chip_get_lines 0%nat [5; 6; 7; 8];
       msg_perr ("Error getting GPIO lines" +:+ nl);
       E_line_release_bulk [5%nat];
       E_chip_close 0%nat] /\
    releases (added s_empty s') <> [].
Proof.
  repeat split; try reflexivity.
  eexists. split; [vm_compute; reflexivity|]. split; [reflexivity|done].
Qed.

(** ** The line operations *)

(** C8: [linux_gpiod_bitbang_get_miso] returns what
    [gpiod_line_get_value] returned for the miso line, whatever it is: the
    sampled level when the read succeeds, the library's negative value when
    it fails (after one diagnostic).  A failure is thus negative, and
    neither of the levels 0 and 1. *)
Theorem get_miso_returns_read (w : world) (s : state) (p : loc)
    (d : gpiod_spi_data) (l : gpiod_line) :
  heap s !! p = Some d ->
  miso_line d = Some l ->
  let v := gpiod_line_get_value w l in
  exists s' : state,
    linux_gpiod_bitbang_get_miso w p s = Some (v, s') /\
    heap s' = heap s /\
    added s s' =
      E_line_get_value l ::
      (if v <? 0 then [msg_perr ("Getting miso line failed" +:+ nl)] else []) /\
    (v < 0 -> v <> 0 /\ v <> 1).
Proof.
  intros Hd Hl v. destruct s as [h t]. cbn [heap] in Hd.
  unfold linux_gpiod_bitbang_get_miso.
  rewrite bind_run, (run_load_live h t p d Hd); cbv beta iota.
  rewrite Hl. run. fold v.
  destruct (v <? 0); run.
  - eexists. split; [reflexivity|]. rewrite <- app_assoc, added_app.
    repeat split; lia.
  - eexists. split; [reflexivity|]. rewrite added_app.
    repeat split; lia.
Qed.

Lemma get_miso_returns_read_witness :
  let v := gpiod_line_get_value w_io_error 8%nat in
  exists s' : state,
    linux_gpiod_bitbang_get_miso w_io_error 1%positive s_armed = Some (v, s') /\
    heap s' = heap s_armed /\
    added s_armed s' =
      E_line_get_value 8%nat ::
      (if v <? 0 then [msg_perr ("Getting miso line failed" +:+ nl)] else []) /\
    (v < 0 -> v <> 0 /\ v <> 1).
Proof.
  apply (get_miso_returns_read w_io_error s_armed 1%positive
           (armed 0%nat 5%nat 6%nat 7%nat 8%nat) 8%nat); reflexivity.
Defined.

(** C10: when the write of the mosi line fails,
    [linux_gpiod_bitbang_set_mosi] prints "Setting sck line failed", the
    very diagnostic [linux_gpiod_bitbang_set_sck] prints when the write of
    the sck line fails; the text does not contain "mosi". *)
Theorem set_mosi_failure_diagnostic (w : world) (s : state) (p : loc)
    (d : gpiod_spi_data) (lmosi lsck : gpiod_line) (val : Z) :
  heap s !! p = Some d ->
  mosi_line d = Some lmosi ->
  sck_line d = Some lsck ->
  gpiod_line_set_value w lmosi val < 0 ->
  gpiod_line_set_value w lsck val < 0 ->
  let text := "Setting sck line failed" +:+ nl in
  exists s_mosi s_sck : state,
    linux_gpiod_bitbang_set_mosi w val p s = Some (tt, s_mosi) /\
    added s s_mosi = [E_line_set_value lmosi val; msg_perr text] /\
    linux_gpiod_bitbang_set_sck w val p s = Some (tt, s_sck) /\
    added s s_sck = [E_line_set_value lsck val; msg_perr text] /\
    occurs_in "mosi" text = false.
Proof.
  intros Hd Hmosi Hsck Hfm Hfs text. destruct s as [h t]. cbn [heap] in Hd.
  unfold linux_gpiod_bitbang_set_mosi, linux_gpiod_bitbang_set_sck.
  rewrite !bind_run, !(run_load_live h t p d Hd); cbv beta iota.
  rewrite Hmosi, Hsck. run.
  apply Z.ltb_lt in Hfm, Hfs. rewrite Hfm, Hfs, !run_when_true, !run_emit.
  eexists _, _. rewrite <- !app_assoc, !added_app. done.
Qed.

Lemma set_mosi_failure_diagnostic_witness :
  let text := "Setting sck line failed" +:+ nl in
  exists s_mosi s_sck : state,
    linux_gpiod_bitbang_set_mosi w_io_error 1 1%positive s_armed
      = Some (tt, s_mosi) /\
    added s_armed s_mosi = [E_line_set_value 7%nat 1; msg_perr text] /\
    linux_gpiod_bitbang_set_sck w_io_error 1 1%positive s_armed
      = Some (tt, s_sck) /\
    added s_armed s_sck = [E_line_set_value 6%nat 1; msg_perr text] /\
    occurs_in "mosi" text = false.
Proof.
  apply (set_mosi_failure_diagnostic w_io_error s_armed 1%positive
           (armed 0%nat 5%nat 6%nat 7%nat 8%nat) 7%nat 6%nat 1);
    reflexivity.
Defined.

(** ** Shutdown *)

(** C2, as the code has it: on a state that holds the chip and the four
    lines, [linux_gpiod_spi_shutdown] releases the bulk once, closes the chip
    once, frees the state and returns 0.  It leaves nothing behind that a
    second call could test: the second call on the same pointer reads the
    freed state, which is undefined. *)
Theorem shutdown_armed_once (s : state) (p : loc) (c : gpiod_chip)
    (l0 l1 l2 l3 : gpiod_line) :
  heap s !! p = Some (armed c l0 l1 l2 l3) ->
  exists s1 : state,
    linux_gpiod_spi_shutdown p s = Some (0, s1) /\
    heap s1 = delete p (heap s) /\
    added s s1 = [E_line_release_bulk [l0; l1; l2; l3]; E_chip_close c] /\
    releases (added s s1) = [E_line_release_bulk [l0; l1; l2; l3]] /\
    closes (added s s1) = [E_chip_close c] /\
    linux_gpiod_spi_shutdown p s1 = None.
Proof.
  intros Hd. destruct s as [h t]. cbn [heap] in Hd.
  eexists. split; [by apply run_shutdown_armed|].
  rewrite added_app. repeat split.
  unfold linux_gpiod_spi_shutdown. by rewrite bind_run, run_load_freed.
Qed.

Lemma shutdown_armed_once_witness :
  exists s1 : state,
    linux_gpiod_spi_shutdown 1%positive s_armed = Some (0, s1) /\
    heap s1 = delete 1%positive (heap s_armed) /\
    added s_armed s1 =
      [E_line_release_bulk [5; 6; 7; 8]%nat; E_chip_close 0%nat] /\
    releases (added s_armed s1) = [E_line_release_bulk [5; 6; 7; 8]%nat] /\
    closes (added s_armed s1) = [E_chip_close 0%nat] /\
    linux_gpiod_spi_shutdown 1%positive s1 = None.
Proof.
  apply (shutdown_armed_once s_armed 1%positive 0%nat 5%nat 6%nat 7%nat 8%nat).
  reflexivity.
Defined.

(** C2 as the specification words it (a second shutdown is a no-op) does
    not hold: after the shutdown of an armed state, a second shutdown on the
    same pointer is not a call that returns and leaves everything as it was;
    it has no defined outcome at all. *)
Lemma shutdown_twice_not_a_noop :
  exists s1 : state,
    linux_gpiod_spi_shutdown 1%positive s_armed = Some (0, s1) /\
    ~ (exists r : Z, linux_gpiod_spi_shutdown 1%positive s1 = Some (r, s1)).
Proof.
  eexists. split; [vm_compute; reflexivity|].
  intros [r Hr]. vm_compute in Hr. discriminate.
Qed.

(** ** Who cleans up

    Whatever the collaborators answer, a run of the initialisation that
    returns gives 0 or 1, has called release at most once and close at most
    once, and ends in one of two ways: either the heap is as before (the
    state was never allocated, or [err_exit] has freed it), or the state is
    live, [register_shutdown] was called on it and returned 0, and the run
    itself has neither released nor closed anything. *)
Theorem init_cleanup_ownership (w : world) (s : state) (ret : Z) (s' : state) :
  linux_gpiod_spi_init w s = Some (ret, s') ->
  let p := fresh (dom (heap s)) in
  (ret = 0 \/ ret = 1) /\
  (length (releases (added s s')) <= 1)%nat /\
  (length (closes (added s s')) <= 1)%nat /\
  (heap s' = heap s \/
   exists d : gpiod_spi_data,
     heap s' = <[p := d]> (heap s) /\
     register_shutdown w = 0 /\
     E_register_shutdown p ∈ added s s' /\
     releases (added s s') = [] /\
     closes (added s s') = []).
Proof.
  destruct s as [h t]. intros Hrun p. subst p. cbn [heap].
  unfold linux_gpiod_spi_init in Hrun.
  rewrite bind_run, parse_params_run in Hrun.
  destruct (first_missing w param_str) as [missing|].
  { injection Hrun as <- <-. rewrite added_app. cbn. auto with lia. }
  rewrite bind_run in Hrun. unfold calloc in Hrun.
  destruct (calloc_fails w).
  { revert Hrun. run. intros [= <- <-]. rewrite added_app. cbn. auto with lia. }
  revert Hrun. run.
  destruct (gpiod_chip_open_by_number w _) as [c|].
  2:{ run. intros [= <- <-]. rewrite <- !app_assoc, added_app. cbn. auto with lia. }
  run.
  destruct (gpiod_chip_get_lines w c _) as [rc b]. run.
  destruct (rc =? 0); run.
  2:{ intros [= <- <-]. rewrite <- !app_assoc, added_app.
      destruct b; cbn; auto with lia. }
  destruct b as [|l0 [|l1 [|l2 [|l3 rest]]]]; run; try discriminate.
  destruct (_ <? 0); run.
  { intros [= <- <-]. rewrite <- !app_assoc, added_app. cbn. auto with lia. }
  destruct (register_shutdown w =? 0) eqn:Hs; run.
  2:{ intros [= <- <-]. rewrite <- !app_assoc, added_app. cbn. auto with lia. }
  apply Z.eqb_eq in Hs.
  assert (Hreg : forall q (e : event) pre,
            E_register_shutdown q ∈ (pre ++ [E_register_shutdown q; e])%list).
  { intros. apply elem_of_app. right. apply elem_of_cons. by left. }
  destruct (register_spi_bitbang_master w =? 0); run;
    intros [= <- <-]; rewrite <- !app_assoc, added_app; cbn;
    (repeat split; [auto | lia | lia | right; eexists; repeat split; try done]);
    apply (Hreg _ _ [_; _; _; _; _; _]).
Qed.

Lemma init_cleanup_ownership_witness :
  let p := fresh (dom (heap s_empty)) in
  (1 = 0 \/ 1 = 1) /\
  (length (releases (added s_empty s_rolled_back)) <= 1)%nat /\
  (length (closes (added s_empty s_rolled_back)) <= 1)%nat /\
  (heap s_rolled_back = heap s_empty \/
   exists d : gpiod_spi_data,
     heap s_rolled_back = <[p := d]> (heap s_empty) /\
     register_shutdown w_miso_busy = 0 /\
     E_register_shutdown p ∈ added s_empty s_rolled_back /\
     releases (added s_empty s_rolled_back) = [] /\
     closes (added s_empty s_rolled_back) = []).
Proof.
  apply (init_cleanup_ownership w_miso_busy s_empty 1 s_rolled_back).
  reflexivity.
Defined.
(** The initialisation always returns, provided a lookup that reports
    success has put the four lines into the bulk. *)
Theorem init_returns (w : world) (s : state) :
  (forall c : gpiod_chip,
     gpiod_chip_open_by_number w (gpiochip_number w) = Some c ->
     (gpiod_chip_get_lines w c (line_offsets w)).1 = 0 ->
     (4 <= length (gpiod_chip_get_lines w c (line_offsets w)).2)%nat) ->
  exists (ret : Z) (s' : state), linux_gpiod_spi_init w s = Some (ret, s').
Proof.
  destruct s as [h t]. intros Hsound.
  unfold linux_gpiod_spi_init.
  rewrite bind_run, parse_params_run.
  destruct (first_missing w param_str) as [missing|]; [by eexists _, _|].
  fold (param_int w); fold (gpiochip_number w); fold (line_offsets w).
  rewrite bind_run. unfold calloc.
  destruct (calloc_fails w); run; [by eexists _, _|].
  destruct (gpiod_chip_open_by_number w _) as [c|] eqn:Ho; run;
    [|by eexists _, _].
  specialize (Hsound c eq_refl).
  destruct (gpiod_chip_get_lines w c _) as [rc b]. run.
  cbn [fst snd] in Hsound.
  destruct (Z.eqb_spec rc 0) as [Hrc|Hrc]; run; [|by eexists _, _].
  specialize (Hsound Hrc).
  destruct b as [|l0 [|l1 [|l2 [|l3 rest]]]]; cbn in Hsound; try lia. run.
  destruct (_ <? 0); run; [by eexists _, _|].
  destruct (register_shutdown w =? 0); run; [|by eexists _, _].
  destruct (register_spi_bitbang_master w =? 0); run; by eexists _, _.
Qed.

Lemma init_returns_witness :
  exists (ret : Z) (s' : state), linux_gpiod_spi_init w_ok s_empty = Some (ret, s').
Proof.
  apply (init_returns w_ok s_empty).
  intros c _ _. vm_compute. lia.
Defined.

(** ** The paths of the initialisation, and what holds on all of them *)

Lemma release_guard (b : gpiod_line_bulk) :
  (if 0 <? gpiod_line_bulk_num_lines b then [E_line_release_bulk b] else [])
  = release_if_held b.
Proof. by destruct b. Qed.

(** Every run that returns has taken one of the eight paths. *)
Lemma init_path_sound (w : world) (h : gmap loc gpiod_spi_data)
    (t : list event) (ret : Z) (s' : state) :
  linux_gpiod_spi_init w (mk_state h t) = Some (ret, s') ->
  exists (h' : gmap loc gpiod_spi_data) (new : list event),
    s' = mk_state h' (t ++ new) /\ init_path w h ret h' new.
Proof.
  unfold linux_gpiod_spi_init.
  rewrite bind_run, parse_params_run.
  destruct (first_missing w param_str) as [missing|] eqn:Hp.
  { intros [= <- <-]. eexists _, _. split; [reflexivity|]. by constructor. }
  fold (param_int w); fold (gpiochip_number w); fold (line_offsets w).
  rewrite bind_run. unfold calloc.
  destruct (calloc_fails w) eqn:Ha; run.
  { intros [= <- <-]. eexists _, _. split; [reflexivity|]. by constructor. }
  destruct (gpiod_chip_open_by_number w _) as [c|] eqn:Ho; run.
  2:{ intros [= <- <-]. rewrite <- !app_assoc. cbn [app].
      eexists _, _. split; [reflexivity|]. by constructor. }
  destruct (gpiod_chip_get_lines w c _) as [rc b] eqn:Hl. run.
  destruct (Z.eqb_spec rc 0) as [->|Hrc]; run.
  2:{ rewrite release_guard. intros [= <- <-]. rewrite <- !app_assoc.
      eexists _, _. split; [reflexivity|].
      by apply (path_lookup_failed w h c rc b). }
  destruct b as [|l0 [|l1 [|l2 [|l3 more]]]]; run; try discriminate.
  fold (requests_result w l0 l1 l2 l3).
  destruct (Z.ltb_spec (requests_result w l0 l1 l2 l3) 0) as [Hr|Hr]; run.
  { intros [= <- <-]. rewrite <- !app_assoc.
    eexists _, _. split; [reflexivity|].
    by apply (path_request_failed w h c l0 l1 l2 l3 more). }
  destruct (Z.eqb_spec (register_shutdown w) 0) as [Hs|Hs]; run.
  2:{ intros [= <- <-]. rewrite <- !app_assoc.
      eexists _, _. split; [reflexivity|].
      by apply (path_shutdown_not_registered w h c l0 l1 l2 l3 more). }
  destruct (Z.eqb_spec (register_spi_bitbang_master w) 0) as [Hm|Hm]; run;
    intros [= <- <-]; rewrite <- !app_assoc;
    (eexists _, _; split; [reflexivity|]).
  - by apply (path_success w h c l0 l1 l2 l3 more).
  - by apply (path_master_not_registered w h c l0 l1 l2 l3 more).
Qed.

(** Each of the eight paths is taken when its conditions hold. *)
Lemma init_path_complete (w : world) (h h' : gmap loc gpiod_spi_data)
    (t new : list event) (ret : Z) :
  init_path w h ret h' new ->
  linux_gpiod_spi_init w (mk_state h t) = Some (ret, mk_state h' (t ++ new)).
Proof.
  intros Hpath. unfold linux_gpiod_spi_init.
  rewrite bind_run, parse_params_run.
  destruct Hpath as
    [ name Hp | Hp Ha | Hp Ha Ho | c rc b Hp Ha Ho Hl Hrc
    | c l0 l1 l2 l3 more Hp Ha Ho Hl Hr
    | c l0 l1 l2 l3 more Hp Ha Ho Hl Hr Hs
    | c l0 l1 l2 l3 more Hp Ha Ho Hl Hr Hs Hm
    | c l0 l1 l2 l3 more Hp Ha Ho Hl Hr Hs Hm ];
    rewrite Hp; [reflexivity|..];
    fold (param_int w); fold (gpiochip_number w); fold (line_offsets w);
    rewrite bind_run; unfold calloc; rewrite Ha; run; [reflexivity|..];
    rewrite Ho; run; [by rewrite <- !app_assoc|..];
    rewrite Hl; run.
  - apply Z.eqb_neq in Hrc. rewrite Hrc. run.
    by rewrite release_guard, <- !app_assoc.
  - fold (requests_result w l0 l1 l2 l3).
    apply Z.ltb_lt in Hr. rewrite Hr. run. by rewrite <- !app_assoc.
  - fold (requests_result w l0 l1 l2 l3).
    apply Z.ltb_ge in Hr. rewrite Hr. run.
    apply Z.eqb_neq in Hs. rewrite Hs. run. by rewrite <- !app_assoc.
  - fold (requests_result w l0 l1 l2 l3).
    apply Z.ltb_ge in Hr. rewrite Hr. run. rewrite Hs. run.
    apply Z.eqb_neq in Hm. rewrite Hm. run. by rewrite <- !app_assoc.
  - fold (requests_result w l0 l1 l2 l3).
    apply Z.ltb_ge in Hr. rewrite Hr. run. rewrite Hs. run.
    rewrite Hm. run. by rewrite <- !app_assoc.
Qed.

(** Initialisation returns 0 exactly when all five parameters are given, the
    state is allocated, the chip opens, the lookup returns 0, no request
    returns a negative value and both registrations return 0; the state is
    then live with the chip, the bulk and the four lines, and the calls made
    are open, lookup, the four requests and the two registrations. *)
Theorem init_returns_zero_iff (w : world) (s s' : state) :
  linux_gpiod_spi_init w s = Some (0, s') <->
  exists (c : gpiod_chip) (l0 l1 l2 l3 : gpiod_line) (more : list gpiod_line),
    first_missing w param_str = None /\
    calloc_fails w = false /\
    gpiod_chip_open_by_number w (gpiochip_number w) = Some c /\
    gpiod_chip_get_lines w c (line_offsets w)
      = (0, l0 :: l1 :: l2 :: l3 :: more) /\
    0 <= requests_result w l0 l1 l2 l3 /\
    register_shutdown w = 0 /\
    register_spi_bitbang_master w = 0 /\
    s' = mk_state
           (<[fresh (dom (heap s)) :=
                assigned c (l0 :: l1 :: l2 :: l3 :: more) l0 l1 l2 l3]> (heap s))
           (trace s ++ acquisition w c l0 l1 l2 l3 ++
              [E_register_shutdown (fresh (dom (heap s)));
               E_register_spi_bitbang_master (fresh (dom (heap s)))]).
Proof.
  destruct s as [h t]. split.
  - intros (h' & new & -> & Hpath)%init_path_sound.
    inversion Hpath; subst. eexists _, _, _, _, _, _. by repeat split.
  - intros (c & l0 & l1 & l2 & l3 & more & Hp & Ha & Ho & Hl & Hr & Hs & Hm & ->).
    apply init_path_complete. by apply path_success.
Qed.

(** When the chip cannot be opened, initialisation prints the diagnostic
    with the text of [errno], frees the state and returns 1; the open is the
    only call into libgpiod: no lookup, request, release or close. *)
Theorem init_open_failure (w : world) (s : state) :
  first_missing w param_str = None ->
  calloc_fails w = false ->
  gpiod_chip_open_by_number w (gpiochip_number w) = None ->
  exists s' : state,
    linux_gpiod_spi_init w s = Some (1, s') /\
    heap s' = heap s /\
    added s s' =
      [E_chip_open_by_number (gpiochip_number w);
       msg_perr ("Failed to open gpiochip: " +:+ strerror_errno w +:+ nl)] /\
    gpio_calls (added s s') = [E_chip_open_by_number (gpiochip_number w)].
Proof.
  intros Hp Ha Ho. destruct s as [h t].
  eexists. split; [by apply init_path_complete, path_open_failed|].
  rewrite added_app. done.
Qed.

Lemma init_open_failure_witness :
  exists s' : state,
    linux_gpiod_spi_init w_no_chip s_empty = Some (1, s') /\
    heap s' = heap s_empty /\
    added s_empty s' =
      [E_chip_open_by_number (gpiochip_number w_no_chip);
       msg_perr ("Failed to open gpiochip: "
                 +:+ strerror_errno w_no_chip +:+ nl)] /\
    gpio_calls (added s_empty s') =
      [E_chip_open_by_number (gpiochip_number w_no_chip)].
Proof. apply (init_open_failure w_no_chip s_empty); reflexivity. Defined.

(** When [register_shutdown] returns non-zero, initialisation releases the
    bulk, frees the state, closes the chip and returns 1; it prints nothing
    itself and does not go on to [register_spi_bitbang_master]. *)
Theorem init_shutdown_registration_failure (w : world) (s : state)
    (c : gpiod_chip) (l0 l1 l2 l3 : gpiod_line) :
  lines_looked_up w c l0 l1 l2 l3 ->
  0 <= requests_result w l0 l1 l2 l3 ->
  register_shutdown w <> 0 ->
  exists s' : state,
    linux_gpiod_spi_init w s = Some (1, s') /\
    heap s' = heap s /\
    added s s' =
      (acquisition w c l0 l1 l2 l3 ++
       [E_register_shutdown (fresh (dom (heap s)));
        E_line_release_bulk [l0; l1; l2; l3];
        E_chip_close c])%list /\
    diagnostics (added s s') = [] /\
    registrations (added s s') = [E_register_shutdown (fresh (dom (heap s)))].
Proof.
  intros (Hp & Ha & Ho & Hl) Hr Hs. destruct s as [h t].
  eexists. split.
  - by apply init_path_complete,
      (path_shutdown_not_registered w h c l0 l1 l2 l3 []).
  - rewrite added_app. done.
Qed.

Lemma init_shutdown_registration_failure_witness :
  exists s' : state,
    linux_gpiod_spi_init w_shutdown_refused s_empty = Some (1, s') /\
    heap s' = heap s_empty /\
    added s_empty s' =
      (acquisition w_shutdown_refused 0%nat 5%nat 6%nat 7%nat 8%nat ++
       [E_register_shutdown (fresh (dom (heap s_empty)));
        E_line_release_bulk [5; 6; 7; 8]%nat;
        E_chip_close 0%nat])%list /\
    diagnostics (added s_empty s') = [] /\
    registrations (added s_empty s')
      = [E_register_shutdown (fresh (dom (heap s_empty)))].
Proof.
  apply (init_shutdown_registration_failure w_shutdown_refused s_empty
           0%nat 5%nat 6%nat 7%nat 8%nat);
    [repeat split; reflexivity | by vm_compute | by vm_compute].
Defined.

(** A run of the initialisation that returns has either printed exactly
    one diagnostic and returned 1 without reaching [register_shutdown], or it
    has reached [register_shutdown] and printed nothing: a registration that
    fails makes the function return 1 without a diagnostic of its own. *)
Theorem init_diagnostics (w : world) (s : state) (ret : Z) (s' : state) :
  linux_gpiod_spi_init w s = Some (ret, s') ->
  (ret = 1 /\ length (diagnostics (added s s')) = 1%nat /\
   registrations (added s s') = []) \/
  (diagnostics (added s s') = [] /\
   head (registrations (added s s'))
     = Some (E_register_shutdown (fresh (dom (heap s))))).
Proof.
  destruct s as [h t].
  intros (h' & new & -> & Hpath)%init_path_sound. rewrite added_app.
  destruct Hpath as [| | |c rc b| | | |]; try (by left); try (by right).
  left. destruct b; done.
Qed.

Lemma init_diagnostics_witness :
  (1 = 1 /\
   length (diagnostics
             (added s_empty
                (mk_state ∅ [missing_diagnostic "miso"]))) = 1%nat /\
   registrations (added s_empty (mk_state ∅ [missing_diagnostic "miso"])) = [])
  \/
  (diagnostics (added s_empty (mk_state ∅ [missing_diagnostic "miso"])) = [] /\
   head (registrations
           (added s_empty (mk_state ∅ [missing_diagnostic "miso"])))
     = Some (E_register_shutdown (fresh (dom (heap s_empty))))).
Proof.
  apply (init_diagnostics w_no_miso s_empty 1
           (mk_state ∅ [missing_diagnostic "miso"])).
  reflexivity.
Defined.

(** Nothing is leaked.  In a run that returns, a chip that was opened is
    closed by the run, once, unless the state is handed to the shutdown
    function (live, holding that chip, [register_shutdown] having returned
    0); and a bulk in which the lookup has put a line is released by the
    run, once, unless it is handed over in the same way. *)
Theorem init_no_leak (w : world) (s : state) (ret : Z) (s' : state)
    (c : gpiod_chip) :
  linux_gpiod_spi_init w s = Some (ret, s') ->
  first_missing w param_str = None ->
  calloc_fails w = false ->
  gpiod_chip_open_by_number w (gpiochip_number w) = Some c ->
  let b := (gpiod_chip_get_lines w c (line_offsets w)).2 in
  (heap s' = heap s /\
   closes (added s s') = [E_chip_close c] /\
   releases (added s s') = release_if_held b) \/
  (exists d : gpiod_spi_data,
     heap s' = <[fresh (dom (heap s)) := d]> (heap s) /\
     chip d = Some c /\ bulk d = b /\
     register_shutdown w = 0 /\
     E_register_shutdown (fresh (dom (heap s))) ∈ added s s' /\
     closes (added s s') = [] /\
     releases (added s s') = []).
Proof.
  destruct s as [h t].
  intros (h' & new & -> & Hpath)%init_path_sound Hp Ha Ho b. subst b.
  rewrite added_app. cbn [heap].
  destruct Hpath as
    [ name Hp' | Hp' Ha' | Hp' Ha' Ho' | c' rc b Hp' Ha' Ho' Hl Hrc
    | c' l0 l1 l2 l3 more Hp' Ha' Ho' Hl Hr
    | c' l0 l1 l2 l3 more Hp' Ha' Ho' Hl Hr Hs
    | c' l0 l1 l2 l3 more Hp' Ha' Ho' Hl Hr Hs Hm
    | c' l0 l1 l2 l3 more Hp' Ha' Ho' Hl Hr Hs Hm ];
    try congruence;
    assert (c' = c) as -> by congruence; rewrite Hl; cbn [snd].
  - left. destruct b; done.
  - by left.
  - by left.
  - right. eexists. repeat split; try done.
    apply elem_of_app. right. apply elem_of_cons. by left.
  - right. eexists. repeat split; try done.
    apply elem_of_app. right. apply elem_of_cons. by left.
Qed.

Lemma init_no_leak_witness :
  let b := (gpiod_chip_get_lines w_ok 0%nat (line_offsets w_ok)).2 in
  (heap s_ready = heap s_empty /\
   closes (added s_empty s_ready) = [E_chip_close 0%nat] /\
   releases (added s_empty s_ready) = release_if_held b) \/
  (exists d : gpiod_spi_data,
     heap s_ready = <[fresh (dom (heap s_empty)) := d]> (heap s_empty) /\
     chip d = Some 0%nat /\ bulk d = b /\
     register_shutdown w_ok = 0 /\
     E_register_shutdown (fresh (dom (heap s_empty))) ∈ added s_empty s_ready /\
     closes (added s_empty s_ready) = [] /\
     releases (added s_empty s_ready) = []).
Proof.
  apply (init_no_leak w_ok s_empty 0 s_ready 0%nat); reflexivity.
Defined.

(** Cleanup comes last and in order.  In a run that returns, the calls are
    a part without release or close, then the release if there is one, then
    the close if there is one. *)
Theorem init_cleanup_last (w : world) (s : state) (ret : Z) (s' : state) :
  linux_gpiod_spi_init w s = Some (ret, s') ->
  exists before : list event,
    added s s' =
      (before ++ releases (added s s') ++ closes (added s s'))%list /\
    releases before = [] /\ closes before = [].
Proof.
  destruct s as [h t].
  intros (h' & new & -> & Hpath)%init_path_sound. rewrite added_app.
  destruct Hpath as [| | |c rc b| | | |].
  1-3, 7-8: eexists; rewrite app_nil_r; by repeat split.
  - exists [E_chip_open_by_number (gpiochip_number w);
            E_chip_get_lines c (line_offsets w);
            msg_perr ("Error getting GPIO lines" +:+ nl)].
    destruct b; by repeat split.
  - exists (acquisition w c l0 l1 l2 l3 ++ [requests_failed_diagnostic])%list.
    by repeat split.
  - exists (acquisition w c l0 l1 l2 l3
            ++ [E_register_shutdown (fresh (dom h))])%list.
    by repeat split.
Qed.

Lemma init_cleanup_last_witness :
  exists before : list event,
    added s_empty s_rolled_back =
      (before ++ releases (added s_empty s_rolled_back)
         ++ closes (added s_empty s_rolled_back))%list /\
    releases before = [] /\ closes before = [].
Proof.
  apply (init_cleanup_last w_miso_busy s_empty 1 s_rolled_back). reflexivity.
Defined.

(** What the initialisation asks of libgpiod.  In a run that returns, no
    line value is read or written; the requests made are none at all or the
    four of one bulk, in the order of the bulk: the first three as outputs
    with default value 1, the fourth as input, all for the consumer
    "flashrom". *)
Theorem init_requests_none_or_four (w : world) (s : state) (ret : Z)
    (s' : state) :
  linux_gpiod_spi_init w s = Some (ret, s') ->
  line_ios (added s s') = [] /\
  (requests (added s s') = [] \/
   exists (c : gpiod_chip) (l0 l1 l2 l3 : gpiod_line) (more : list gpiod_line),
     gpiod_chip_get_lines w c (line_offsets w)
       = (0, l0 :: l1 :: l2 :: l3 :: more) /\
     requests (added s s') =
       [E_line_request_output l0 "flashrom" 1;
        E_line_request_output l1 "flashrom" 1;
        E_line_request_output l2 "flashrom" 1;
        E_line_request_input l3 "flashrom"]).
Proof.
  destruct s as [h t].
  intros (h' & new & -> & Hpath)%init_path_sound. rewrite added_app.
  destruct Hpath as [| | |c rc b| | | |].
  1-3: by split; [|left].
  - destruct b; by split; [|left].
  - split; [done|]. right. by eexists _, _, _, _, _, _.
  - split; [done|]. right. by eexists _, _, _, _, _, _.
  - split; [done|]. right. by eexists _, _, _, _, _, _.
  - split; [done|]. right. by eexists _, _, _, _, _, _.
Qed.

Lemma init_requests_none_or_four_witness :
  line_ios (added s_empty s_rolled_back) = [] /\
  (requests (added s_empty s_rolled_back) = [] \/
   exists (c : gpiod_chip) (l0 l1 l2 l3 : gpiod_line) (more : list gpiod_line),
     gpiod_chip_get_lines w_miso_busy c (line_offsets w_miso_busy)
       = (0, l0 :: l1 :: l2 :: l3 :: more) /\
     requests (added s_empty s_rolled_back) =
       [E_line_request_output l0 "flashrom" 1;
        E_line_request_output l1 "flashrom" 1;
        E_line_request_output l2 "flashrom" 1;
        E_line_request_input l3 "flashrom"]).
Proof.
  apply (init_requests_none_or_four w_miso_busy s_empty 1 s_rolled_back).
  reflexivity.
Defined.

(** The initialisation works on a state of its own.  In a run that returns,
    every state that was live before is live after with the same content,
    and at most the one new address is added to the heap. *)
Theorem init_frame (w : world) (s : state) (ret : Z) (s' : state) (q : loc)
    (d : gpiod_spi_data) :
  linux_gpiod_spi_init w s = Some (ret, s') ->
  heap s !! q = Some d ->
  heap s' !! q = Some d /\
  dom (heap s') ⊆ dom (heap s) ∪ {[ fresh (dom (heap s)) ]}.
Proof.
  destruct s as [h t].
  intros (h' & new & -> & Hpath)%init_path_sound Hq. cbn [heap] in *.
  assert (Hne : fresh (dom h) <> q).
  { intros <-. by rewrite fresh_not_live in Hq. }
  destruct Hpath; rewrite ?lookup_insert_ne, ?dom_insert_L by done;
    (split; [done|]);
    first [apply union_subseteq_l | by rewrite (comm_L (∪))].
Qed.

Lemma init_frame_witness :
  heap s_two_backends !! 1%positive
    = Some (armed 0%nat 5%nat 6%nat 7%nat 8%nat) /\
  dom (heap s_two_backends)
    ⊆ dom (heap s_armed) ∪ {[ fresh (dom (heap s_armed)) ]}.
Proof.
  apply (init_frame w_ok s_armed 0 s_two_backends 1%positive
           (armed 0%nat 5%nat 6%nat 7%nat 8%nat)); by vm_compute.
Defined.



(** ** Shutdown and the operations on any live state *)

Lemma run_shutdown_live (h : gmap loc gpiod_spi_data) (t : list event)
    (p : loc) (d : gpiod_spi_data) :
  h !! p = Some d ->
  linux_gpiod_spi_shutdown p (mk_state h t) =
  Some (0, mk_state (delete p h)
             (t ++ release_if_held (bulk d) ++ close_if_open (chip d))).
Proof.
  intros Hd. destruct d as [c b cs sck mosi miso].
  unfold linux_gpiod_spi_shutdown.
  rewrite bind_run, (run_load_live h t p _ Hd); cbv beta iota.
  cbn [bulk chip]. rewrite <- release_guard.
  destruct (0 <? gpiod_line_bulk_num_lines b); run;
    rewrite (run_load_live h _ p _ Hd); run;
    destruct c; run;
    rewrite (run_free_live h _ p _ Hd); run;
    by rewrite <- ?app_assoc, ?app_nil_r.
Qed.

Lemma run_op_live (w : world) (h : gmap loc gpiod_spi_data) (t : list event)
    (p : loc) (d : gpiod_spi_data) (o : op_call) (l : gpiod_line) :
  h !! p = Some d ->
  line_of o d = Some l ->
  run_op bitbang_spi_master_gpiod w o p (mk_state h t) =
  Some (op_result w o l,
        mk_state h
          (t ++ io_event o l ::
             (if io_answer w o l <? 0 then [msg_perr (failure_text o)]
              else []))).
Proof.
  intros Hd Hl.
  destruct o; cbn [line_of] in Hl;
    cbn [run_op bitbang_spi_master_gpiod set_cs set_sck set_mosi get_miso
         op_result io_event io_answer failure_text];
    unfold linux_gpiod_bitbang_set_cs, linux_gpiod_bitbang_set_sck,
      linux_gpiod_bitbang_set_mosi, linux_gpiod_bitbang_get_miso;
    rewrite !bind_run, (run_load_live h t p d Hd); cbv beta iota;
    rewrite Hl; run;
    match goal with |- context [?v <? 0] => destruct (v <? 0) end; run;
    by rewrite <- ?app_assoc.
Qed.

Lemma run_ops_live (h : gmap loc gpiod_spi_data) (p : loc)
    (d : gpiod_spi_data) (calls : list (world * op_call)) (t : list event) :
  h !! p = Some d ->
  lines_assigned d ->
  exists (rs : list (option Z)) (new : list event),
    run_ops bitbang_spi_master_gpiod calls p (mk_state h t)
      = Some (rs, mk_state h (t ++ new)) /\
    length rs = length calls /\
    Forall (fun e => is_op_event e = true) new /\
    length (line_ios new) = length calls.
Proof.
  intros Hd (Hcs & Hsck & Hmosi & Hmiso). revert t.
  induction calls as [|[w o] rest IH]; intros t.
  { exists [], []. by rewrite app_nil_r. }
  assert (Hl : is_Some (line_of o d)) by by destruct o.
  destruct Hl as [l Hl].
  cbn [run_ops]. rewrite bind_run, (run_op_live w h t p d o l Hd Hl).
  cbv beta iota. rewrite bind_run.
  destruct (IH (t ++ io_event o l ::
                  (if io_answer w o l <? 0 then [msg_perr (failure_text o)]
                   else []))%list) as (rs & new & -> & Hlen & Hall & Hio).
  cbv beta iota. rewrite run_ret, <- app_assoc.
  eexists _, _. split; [reflexivity|].
  assert (Hline : is_line_io (io_event o l) = true) by by destruct o.
  assert (Hop : is_op_event (io_event o l) = true).
  { unfold is_op_event. by rewrite Hline. }
  unfold line_ios in *.
  destruct (io_answer w o l <? 0); cbn [app List.filter length is_line_io];
    rewrite Hline; cbn [length is_line_io];
    (repeat split; [by rewrite Hlen | by repeat constructor | by rewrite Hio]).
Qed.

Lemma op_events_no_cleanup (new : list event) :
  Forall (fun e => is_op_event e = true) new ->
  releases new = [] /\ closes new = [] /\ requests new = [] /\
  registrations new = [] /\ gpio_calls new = line_ios new.
Proof.
  induction 1 as [|e new He _ (IH1 & IH2 & IH3 & IH4 & IH5)]; [done|].
  unfold releases, closes, requests, registrations, gpio_calls, line_ios in *.
  destruct e; try discriminate He; cbn; by rewrite ?IH1, ?IH2, ?IH3, ?IH4, ?IH5.
Qed.

(** Shutdown releases what there is.  On any live state it releases the
    bulk if it holds a line, closes the chip if the pointer is set, frees
    the state and returns 0, and leaves every other state alone; on a state
    that is still all zero it makes no call into libgpiod. *)
Theorem shutdown_releases_what_is_held (s : state) (p : loc)
    (d : gpiod_spi_data) :
  heap s !! p = Some d ->
  exists s' : state,
    linux_gpiod_spi_shutdown p s = Some (0, s') /\
    heap s' = delete p (heap s) /\
    added s s' = (release_if_held (bulk d) ++ close_if_open (chip d))%list /\
    (d = zeroed -> added s s' = []).
Proof.
  intros Hd. destruct s as [h t]. cbn [heap] in Hd.
  eexists. split; [by apply run_shutdown_live|].
  rewrite added_app. repeat split. by intros ->.
Qed.

Lemma shutdown_releases_what_is_held_witness :
  exists s' : state,
    linux_gpiod_spi_shutdown 1%positive s_blank = Some (0, s') /\
    heap s' = delete 1%positive (heap s_blank) /\
    added s_blank s' =
      (release_if_held (bulk zeroed) ++ close_if_open (chip zeroed))%list /\
    (zeroed = zeroed -> added s_blank s' = []).
Proof.
  apply (shutdown_releases_what_is_held s_blank 1%positive zeroed).
  reflexivity.
Defined.

(** One call through the table, on a live state whose line is set: exactly
    one libgpiod call, on the line of that operation (cs, sck, mosi for the
    three writes, with the value given; miso for the read); the diagnostic
    is printed exactly when libgpiod answers a negative value; the state is
    not changed; a write returns nothing, so its failure does not reach the
    caller, and the read returns the answer. *)
Theorem op_call_on_live_state (w : world) (s : state) (p : loc)
    (d : gpiod_spi_data) (o : op_call) (l : gpiod_line) :
  heap s !! p = Some d ->
  line_of o d = Some l ->
  exists s' : state,
    run_op bitbang_spi_master_gpiod w o p s = Some (op_result w o l, s') /\
    heap s' = heap s /\
    added s s' =
      io_event o l ::
      (if io_answer w o l <? 0 then [msg_perr (failure_text o)] else []) /\
    gpio_calls (added s s') = [io_event o l].
Proof.
  intros Hd Hl. destruct s as [h t]. cbn [heap] in Hd.
  eexists. split; [by apply (run_op_live w h t p d o l)|].
  rewrite added_app. repeat split.
  destruct o; destruct (_ <? 0); reflexivity.
Qed.

Lemma op_call_on_live_state_witness :
  exists s' : state,
    run_op bitbang_spi_master_gpiod w_io_error (Set_cs 0) 1%positive s_armed
      = Some (op_result w_io_error (Set_cs 0) 5%nat, s') /\
    heap s' = heap s_armed /\
    added s_armed s' =
      io_event (Set_cs 0) 5%nat ::
      (if io_answer w_io_error (Set_cs 0) 5%nat <? 0
       then [msg_perr (failure_text (Set_cs 0))] else []) /\
    gpio_calls (added s_armed s') = [io_event (Set_cs 0) 5%nat].
Proof.
  apply (op_call_on_live_state w_io_error s_armed 1%positive
           (armed 0%nat 5%nat 6%nat 7%nat 8%nat) (Set_cs 0) 5%nat);
    reflexivity.
Defined.

(** Any sequence of calls through the table, whatever libgpiod answers to
    each, on a live state with its four lines set: every call returns, the
    heap is unchanged, each call makes exactly one libgpiod call, which
    reads or writes a line value, and nothing is requested, released,
    closed or registered. *)
Theorem ops_keep_state (s : state) (p : loc) (d : gpiod_spi_data)
    (calls : list (world * op_call)) :
  heap s !! p = Some d ->
  lines_assigned d ->
  exists (rs : list (option Z)) (s' : state),
    run_ops bitbang_spi_master_gpiod calls p s = Some (rs, s') /\
    length rs = length calls /\
    heap s' = heap s /\
    length (gpio_calls (added s s')) = length calls /\
    gpio_calls (added s s') = line_ios (added s s') /\
    requests (added s s') = [] /\
    releases (added s s') = [] /\
    closes (added s s') = [] /\
    registrations (added s s') = [].
Proof.
  intros Hd Hlines. destruct s as [h t]. cbn [heap] in Hd.
  destruct (run_ops_live h p d calls t Hd Hlines)
    as (rs & new & Hrun & Hlen & Hall & Hio).
  destruct (op_events_no_cleanup new Hall) as (H1 & H2 & H3 & H4 & H5).
  eexists _, _. split; [exact Hrun|].
  rewrite added_app. repeat split; try done. by rewrite H5.
Qed.

Lemma ops_keep_state_witness :
  exists (rs : list (option Z)) (s' : state),
    run_ops bitbang_spi_master_gpiod sample_calls 1%positive s_ready
      = Some (rs, s') /\
    length rs = length sample_calls /\
    heap s' = heap s_ready /\
    length (gpio_calls (added s_ready s')) = length sample_calls /\
    gpio_calls (added s_ready s') = line_ios (added s_ready s') /\
    requests (added s_ready s') = [] /\
    releases (added s_ready s') = [] /\
    closes (added s_ready s') = [] /\
    registrations (added s_ready s') = [].
Proof.
  apply (ops_keep_state s_ready 1%positive
           (armed 0%nat 5%nat 6%nat 7%nat 8%nat) sample_calls).
  - reflexivity.
  - repeat split; by eexists.
Defined.

(** ** From initialisation to shutdown *)

(** The whole life of a backend.  After an initialisation that returned 0,
    any sequence of calls through the table runs on the state it left, and
    the shutdown function run afterwards returns 0: the heap is then as it
    was before the initialisation, and over the whole life the bulk of the
    lookup was released exactly once and the chip closed exactly once, as
    the last two calls. *)
Theorem lifecycle_releases_once (w : world) (s s1 : state)
    (calls : list (world * op_call)) :
  linux_gpiod_spi_init w s = Some (0, s1) ->
  exists (c : gpiod_chip) (b : gpiod_line_bulk) (rs : list (option Z))
         (s2 s3 : state),
    gpiod_chip_open_by_number w (gpiochip_number w) = Some c /\
    gpiod_chip_get_lines w c (line_offsets w) = (0, b) /\
    run_ops bitbang_spi_master_gpiod calls (fresh (dom (heap s))) s1
      = Some (rs, s2) /\
    linux_gpiod_spi_shutdown (fresh (dom (heap s))) s2 = Some (0, s3) /\
    heap s3 = heap s /\
    releases (added s s3) = [E_line_release_bulk b] /\
    closes (added s s3) = [E_chip_close c] /\
    trace s3 = (trace s2 ++ [E_line_release_bulk b; E_chip_close c])%list.
Proof.
  destruct s as [h t].
  intros (c & l0 & l1 & l2 & l3 & more & Hp & Ha & Ho & Hl & Hr & Hs & Hm & ->)
    %init_returns_zero_iff.
  cbn [heap trace].
  set (p := fresh (dom h)).
  set (d := assigned c (l0 :: l1 :: l2 :: l3 :: more) l0 l1 l2 l3).
  assert (Hd : <[p := d]> h !! p = Some d) by apply lookup_insert_eq.
  assert (Hlines : lines_assigned d) by (repeat split; by eexists).
  destruct (run_ops_live _ p d calls
              (t ++ acquisition w c l0 l1 l2 l3 ++
                 [E_register_shutdown p; E_register_spi_bitbang_master p])%list
              Hd Hlines)
    as (rs & new & Hrun & _ & Hall & _).
  destruct (op_events_no_cleanup new Hall) as (Hrel & Hclo & _).
  eexists c, _, rs, _, _.
  split; [exact Ho|]. split; [exact Hl|]. split; [exact Hrun|].
  split; [by apply run_shutdown_live|].
  cbn [heap trace bulk chip d assigned release_if_held close_if_open app].
  split; [apply free_fresh|].
  rewrite <- !app_assoc, added_app.
  unfold releases, closes in *. rewrite !List.filter_app, Hrel, Hclo.
  done.
Qed.

Lemma lifecycle_releases_once_witness :
  exists (c : gpiod_chip) (b : gpiod_line_bulk) (rs : list (option Z))
         (s2 s3 : state),
    gpiod_chip_open_by_number w_ok (gpiochip_number w_ok) = Some c /\
    gpiod_chip_get_lines w_ok c (line_offsets w_ok) = (0, b) /\
    run_ops bitbang_spi_master_gpiod sample_calls
      (fresh (dom (heap s_empty))) s_ready = Some (rs, s2) /\
    linux_gpiod_spi_shutdown (fresh (dom (heap s_empty))) s2 = Some (0, s3) /\
    heap s3 = heap s_empty /\
    releases (added s_empty s3) = [E_line_release_bulk b] /\
    closes (added s_empty s3) = [E_chip_close c] /\
    trace s3 = (trace s2 ++ [E_line_release_bulk b; E_chip_close c])%list.
Proof.
  apply (lifecycle_releases_once w_ok s_empty s_ready sample_calls).
  reflexivity.
Defined.

(** After the shutdown the state is gone: a further call through the
    table with the same pointer reads freed memory, whichever operation it
    is and whatever libgpiod would answer. *)
Theorem no_call_after_shutdown (w : world) (s : state) (p : loc)
    (d : gpiod_spi_data) (o : op_call) :
  heap s !! p = Some d ->
  exists s' : state,
    linux_gpiod_spi_shutdown p s = Some (0, s') /\
    heap s' !! p = None /\
    run_op bitbang_spi_master_gpiod w o p s' = None.
Proof.
  intros Hd. destruct s as [h t]. cbn [heap] in Hd.
  eexists. split; [by apply run_shutdown_live|].
  cbn [heap]. split; [apply lookup_delete_eq|].
  destruct o;
    cbn [run_op bitbang_spi_master_gpiod set_cs set_sck set_mosi get_miso];
    unfold linux_gpiod_bitbang_set_cs, linux_gpiod_bitbang_set_sck,
      linux_gpiod_bitbang_set_mosi, linux_gpiod_bitbang_get_miso;
    by rewrite !bind_run, run_load_freed.
Qed.

Lemma no_call_after_shutdown_witness :
  exists s' : state,
    linux_gpiod_spi_shutdown 1%positive s_ready = Some (0, s') /\
    heap s' !! 1%positive = None /\
    run_op bitbang_spi_master_gpiod w_ok Get_miso 1%positive s' = None.
Proof.
  apply (no_call_after_shutdown w_ok s_ready 1%positive
           (armed 0%nat 5%nat 6%nat 7%nat 8%nat) Get_miso).
  reflexivity.
Defined.

End LinuxGpiod.
